(** * The custom-field value codec of the Trello client binding

    A shallow embedding of [custom-fields.go]: the polymorphic
    [CustomFieldValue] holder, its [MarshalJSON] / [UnmarshalJSON]
    methods and [Client.SetCustomFieldByItem], together with the parts
    of the Go standard library the codec calls ([strconv], [fmt], [time],
    [encoding/json]).

    Conventions.
    - A Go [string] is a [string] of bytes ([ascii]).
    - Go's [int] is taken at its 64-bit size ([intSize = 64]); integers
      are [Z] with the range checks of the library written out.
    - A [float64] is a [spec_float] (sign, mantissa, binary exponent) in
      the binary64 format: precision 53, [emax] 1024.
    - A Go call returning [(x, err)] is a pair [(x, option error)]: the
      first component is the value Go returns next to a non-nil error.
    - A byte slice holding a JSON text is the JSON document it spells
      ([Json.json]); scanning and quoting of JSON text are not modelled. *)

From Stdlib Require Import ZArith List String Ascii Bool Lia.
From Stdlib Require Import SpecFloat.
Import ListNotations.

Set Warnings "-register-all".

Open Scope string_scope.
Open Scope Z_scope.

(** ** Errors *)

Inductive num_err := ErrSyntax | ErrRange.

(** The error values the codec meets.  [ErrNum] is [*strconv.NumError],
    [ErrTimeParse] is [*time.ParseError], [ErrJSONType] is
    [*json.UnmarshalTypeError] (with the JSON kind that was found) and
    [ErrMsg] is an error made by [fmt.Errorf] / [errors.Errorf] /
    [errors.New], carrying its message. *)
Inductive error :=
| ErrNum (fn num : string) (e : num_err)
| ErrTimeParse (value elem : string)
| ErrJSONType (found : string)
| ErrMsg (msg : string).

(** ** Bytes *)

Definition byte (c : ascii) : Z := Z.of_N (N_of_ascii c).

Definition isDigit (c : ascii) : bool := (48 <=? byte c) && (byte c <=? 57).

(** [lower(c)] of strconv: [c | ('x' - 'X')]. *)
Definition lower (c : ascii) : Z := Z.lor (byte c) 32.

Definition digit_char (d : Z) : ascii := ascii_of_N (Z.to_N (48 + d)).

Definition len (s : string) : Z := Z.of_nat (String.length s).

(** ** Package strconv: integers *)

Module Strconv.

Definition intSize : Z := 64.

Definition syntaxError (fn s : string) : error := ErrNum fn s ErrSyntax.
Definition rangeError (fn s : string) : error := ErrNum fn s ErrRange.

Definition maxUint64 : Z := 2 ^ 64 - 1.

(** The digit loop of [ParseUint] for [base = 10]; [n] is the [uint64]
    accumulator, [s0] the whole argument (for the error value).  A letter is a
    digit of value at least 10 and so, like any other byte, a syntax error.
    Overflow is reported at the digit where it happens, before the bytes after
    it are looked at. *)
Fixpoint ParseUint_loop (s0 : string) (maxVal : Z) (s : string) (n : Z)
  : Z * option error :=
  match s with
  | EmptyString => (n, None)
  | String c s' =>
      if negb (isDigit c) then (0, Some (syntaxError "ParseUint" s0))
      else
        let d := byte c - 48 in
        if n >=? maxUint64 / 10 + 1 then (maxVal, Some (rangeError "ParseUint" s0))
        else
          let n := n * 10 in
          let n1 := (n + d) mod 2 ^ 64 in
          if (n1 <? n) || (n1 >? maxVal)
          then (maxVal, Some (rangeError "ParseUint" s0))
          else ParseUint_loop s0 maxVal s' n1
  end.

(** [ParseUint(s, 10, bitSize)]. *)
Definition ParseUint (s : string) (bitSize : Z) : Z * option error :=
  match s with
  | EmptyString => (0, Some (syntaxError "ParseUint" s))
  | _ =>
      let bitSize := if bitSize =? 0 then intSize else bitSize in
      ParseUint_loop s (2 ^ bitSize - 1) s 0
  end.

(** [ParseInt(s, 10, bitSize)]: a syntax error gives 0, a range error the
    integer of largest magnitude of the sign. *)
Definition ParseInt (s : string) (bitSize : Z) : Z * option error :=
  match s with
  | EmptyString => (0, Some (syntaxError "ParseInt" s))
  | String c0 s1 =>
      let neg := Ascii.eqb c0 "-" in
      let s' := if Ascii.eqb c0 "+" || Ascii.eqb c0 "-" then s1 else s in
      match ParseUint s' bitSize with
      | (_, Some (ErrNum _ _ ErrSyntax)) => (0, Some (syntaxError "ParseInt" s))
      | (un, _) =>
          let bitSize := if bitSize =? 0 then intSize else bitSize in
          let cutoff := 2 ^ (bitSize - 1) in
          if negb neg && (un >=? cutoff) then (cutoff - 1, Some (rangeError "ParseInt" s))
          else if neg && (un >? cutoff) then (- cutoff, Some (rangeError "ParseInt" s))
          else (if neg then - un else un, None)
      end
  end.

(** The fast path of [Atoi]: digits only, no overflow check (the caller has
    bounded the length). *)
Fixpoint Atoi_fast (s : string) (n : Z) : option Z :=
  match s with
  | EmptyString => Some n
  | String ch s' =>
      if isDigit ch then Atoi_fast s' (n * 10 + (byte ch - 48)) else None
  end.

Definition Atoi (s : string) : Z * option error :=
  let sLen := len s in
  if (0 <? sLen) && (sLen <? 19) then
    match s with
    | EmptyString => (0, Some (syntaxError "Atoi" s))
    | String c0 s1 =>
        let signed := Ascii.eqb c0 "-" || Ascii.eqb c0 "+" in
        let s' := if signed then s1 else s in
        if signed && (len s' <? 1) then (0, Some (syntaxError "Atoi" s))
        else
          match Atoi_fast s' 0 with
          | None => (0, Some (syntaxError "Atoi" s))
          | Some n => (if Ascii.eqb c0 "-" then - n else n, None)
          end
    end
  else
    match ParseInt s 0 with
    | (i64, Some (ErrNum _ num e)) => (i64, Some (ErrNum "Atoi" num e))
    | r => r
    end.

(** [formatBits] for base 10: the digits of [u], least significant first,
    pushed in front of [acc]. *)
Fixpoint formatBits (fuel : nat) (u : Z) (acc : string) : string :=
  match fuel with
  | O => acc
  | S fuel' =>
      if u >=? 10
      then formatBits fuel' (u / 10) (String (digit_char (u mod 10)) acc)
      else String (digit_char u) acc
  end.

(** [FormatInt(i, 10)], also what [fmt]'s [%d] prints for an [int] or an
    [int64].  A number has no more decimal digits than binary ones. *)
Definition FormatInt (i : Z) : string :=
  let u := Z.abs i in
  let digits := formatBits (S (Z.to_nat (Z.log2 u))) u EmptyString in
  if i <? 0 then String "-" digits else digits.

(** *** Floating point

    [ParseFloat] reads the syntax of [readFloat] and [special] and returns,
    as the library documents, the float nearest to the number written
    (ties to even); the exact value is kept as an integer mantissa and a
    decimal or binary exponent and rounded once. *)

Definition float64 := spec_float.

Definition prec64 : Z := 53.
Definition emax64 : Z := 1024.
Definition prec32 : Z := 24.
Definition emax32 : Z := 128.

(** The float of format [(prec, emax)] nearest to [(-1)^neg * num / den]. *)
Definition round_ratio (prec emax : Z) (neg : bool) (num : Z) (den : positive) : spec_float :=
  match num with
  | Zpos n => SFdiv prec emax (S754_finite neg n 0) (S754_finite false den 0)
  | _ => S754_zero neg
  end.

(** The float of format [(prec, emax)] nearest to [(-1)^neg * mant * base^exp]. *)
Definition round_scaled (prec emax : Z) (neg : bool) (mant base exp : Z) : spec_float :=
  if exp >=? 0
  then round_ratio prec emax neg (mant * base ^ exp) 1
  else round_ratio prec emax neg mant (Z.to_pos (base ^ (- exp))).

Definition is_inf (f : spec_float) : bool :=
  match f with S754_infinity _ => true | _ => false end.

(** [float64(f)] for a [float32] value [f]: the same number, in binary64. *)
Definition float64_of_float32 (f : spec_float) : float64 :=
  match f with
  | S754_finite s m e => binary_round prec64 emax64 s m e
  | _ => f
  end.

Definition to_lower (c : ascii) : ascii :=
  if (65 <=? byte c) && (byte c <=? 90) then ascii_of_N (Z.to_N (byte c + 32)) else c.

Fixpoint commonPrefixLenIgnoreCase (s prefix : string) : nat :=
  match s, prefix with
  | String c s', String p prefix' =>
      if Ascii.eqb (to_lower c) p then S (commonPrefixLenIgnoreCase s' prefix') else O
  | _, _ => O
  end.

Fixpoint drop (n : nat) (s : string) : string :=
  match n, s with
  | S n', String _ s' => drop n' s'
  | _, _ => s
  end.

(** [special]: an infinity or a NaN at the start of [s], and what follows it. *)
Definition special (s : string) : option (float64 * string) :=
  let inf (neg : bool) (t : string) :=
    let n := commonPrefixLenIgnoreCase t "infinity" in
    let n := if (3 <? n)%nat && (n <? 8)%nat then 3%nat else n in
    if (n =? 3)%nat || (n =? 8)%nat then Some (S754_infinity neg, drop n t) else None in
  match s with
  | EmptyString => None
  | String c s' =>
      if Ascii.eqb c "+" then inf false s'
      else if Ascii.eqb c "-" then inf true s'
      else if Ascii.eqb c "i" || Ascii.eqb c "I" then inf false s
      else if Ascii.eqb c "n" || Ascii.eqb c "N" then
        if (commonPrefixLenIgnoreCase s "nan" =? 3)%nat
        then Some (S754_nan, drop 3 s) else None
      else None
  end.

Definition isHexLetter (c : ascii) : bool := (97 <=? lower c) && (lower c <=? 102).

(** The state of the mantissa loop of [readFloat]: all digits read so far as
    one integer, how many of them came after the point, and the flags. *)
Record mant_state := {
  mant : Z;
  frac : Z;
  sawdot : bool;
  sawdigits : bool;
  underscores : bool
}.

Fixpoint readMantissa (hex : bool) (s : string) (st : mant_state) : mant_state * string :=
  match s with
  | EmptyString => (st, s)
  | String c s' =>
      let base := if hex then 16 else 10 in
      let digit (d : Z) :=
        {| mant := mant st * base + d;
           frac := if sawdot st then frac st + 1 else frac st;
           sawdot := sawdot st; sawdigits := true; underscores := underscores st |} in
      if Ascii.eqb c "_" then
        readMantissa hex s' {| mant := mant st; frac := frac st; sawdot := sawdot st;
                               sawdigits := sawdigits st; underscores := true |}
      else if Ascii.eqb c "." then
        if sawdot st then (st, s)
        else readMantissa hex s' {| mant := mant st; frac := frac st; sawdot := true;
                                    sawdigits := sawdigits st; underscores := underscores st |}
      else if isDigit c then readMantissa hex s' (digit (byte c - 48))
      else if hex && isHexLetter c then readMantissa hex s' (digit (lower c - 97 + 10))
      else (st, s)
  end.

(** The digits of an exponent; the value stops growing at 10000, as in the
    library.  Returns the value, whether an underscore was met, and the rest. *)
Fixpoint readExpDigits (s : string) (e : Z) (us : bool) : Z * bool * string :=
  match s with
  | EmptyString => (e, us, s)
  | String c s' =>
      if Ascii.eqb c "_" then readExpDigits s' e true
      else if isDigit c
      then readExpDigits s' (if e <? 10000 then e * 10 + (byte c - 48) else e) us
      else (e, us, s)
  end.

(** [underscoreOK]: an underscore stands only between digits, or between a
    base prefix and a digit.  [saw] is the kind of the last byte: a digit
    (['0']), an underscore (['_']), another byte (['!']), or the start (['^']). *)
Fixpoint underscoreOK_loop (hex : bool) (s : string) (saw : ascii) : bool :=
  match s with
  | EmptyString => negb (Ascii.eqb saw "_")
  | String c s' =>
      if isDigit c || (hex && isHexLetter c) then underscoreOK_loop hex s' "0"
      else if Ascii.eqb c "_" then
        if Ascii.eqb saw "0" then underscoreOK_loop hex s' "_" else false
      else if Ascii.eqb saw "_" then false
      else underscoreOK_loop hex s' "!"
  end.

Definition underscoreOK (s : string) : bool :=
  let s := match s with
           | String c s' => if Ascii.eqb c "-" || Ascii.eqb c "+" then s' else s
           | _ => s
           end in
  match s with
  | String c0 (String c1 s') =>
      if Ascii.eqb c0 "0" && ((lower c1 =? 98) || (lower c1 =? 111) || (lower c1 =? 120))
      then underscoreOK_loop (lower c1 =? 120) s' "0"
      else underscoreOK_loop false s "^"
  | _ => underscoreOK_loop false s "^"
  end.

Fixpoint take (n : nat) (s : string) : string :=
  match n, s with
  | S n', String c s' => String c (take n' s')
  | _, _ => EmptyString
  end.

(** What [readFloat] found: sign, base of the exponent (2 for a hexadecimal
    mantissa, else 10), mantissa, exponent, and the bytes left over. *)
Record read_float := {
  rf_neg : bool;
  rf_hex : bool;
  rf_mant : Z;
  rf_exp : Z;
  rf_rest : string
}.

Definition readFloat (s : string) : option read_float :=
  match s with
  | EmptyString => None
  | String c0 s1 =>
      let neg := Ascii.eqb c0 "-" in
      let t := if Ascii.eqb c0 "+" || Ascii.eqb c0 "-" then s1 else s in
      let '(hex, t) :=
        match t with
        | String d0 (String d1 (String d2 t')) =>
            if Ascii.eqb d0 "0" && (lower d1 =? 120) then (true, String d2 t') else (false, t)
        | _ => (false, t)
        end in
      let '(st, t) := readMantissa hex t
          {| mant := 0; frac := 0; sawdot := false; sawdigits := false; underscores := false |} in
      if negb (sawdigits st) then None
      else
        let dp := if hex then - (4 * frac st) else - frac st in
        let expChar := if hex then 112 else 101 in
        let finish (dp : Z) (us : bool) (t : string) :=
          let consumed := take (String.length s - String.length t) s in
          if us && negb (underscoreOK consumed) then None
          else Some {| rf_neg := neg; rf_hex := hex; rf_mant := mant st;
                       rf_exp := dp; rf_rest := t |} in
        match t with
        | String c t1 =>
            if lower c =? expChar then
              match t1 with
              | EmptyString => None
              | String c1 t2 =>
                  let esign := if Ascii.eqb c1 "-" then -1 else 1 in
                  let t3 := if Ascii.eqb c1 "+" || Ascii.eqb c1 "-" then t2 else t1 in
                  match t3 with
                  | String c2 _ =>
                      if isDigit c2 then
                        let '(e, us, t4) := readExpDigits t3 0 (underscores st) in
                        finish (dp + e * esign) us t4
                      else None
                  | EmptyString => None
                  end
              end
            else if hex then None
            else finish dp (underscores st) t
        | EmptyString => if hex then None else finish dp (underscores st) t
        end
  end.

(** [atof64] / [atof32] followed by the check of [ParseFloat] that the whole of
    [s] was used.  Overflow gives the infinity of the sign and a range error;
    a syntax error gives 0.  The result is a [float64] for both sizes. *)
Definition ParseFloat (s : string) (bitSize : Z) : float64 * option error :=
  let prec := if bitSize =? 32 then prec32 else prec64 in
  let emax := if bitSize =? 32 then emax32 else emax64 in
  let widen (f : spec_float) := if bitSize =? 32 then float64_of_float32 f else f in
  let bad := (S754_zero false, Some (syntaxError "ParseFloat" s)) in
  match special s with
  | Some (f, rest) => match rest with EmptyString => (f, None) | _ => bad end
  | None =>
      match readFloat s with
      | None => bad
      | Some r =>
          match rf_rest r with
          | EmptyString =>
              let f := round_scaled prec emax (rf_neg r) (rf_mant r)
                         (if rf_hex r then 2 else 10) (rf_exp r) in
              (widen f, if is_inf f then Some (rangeError "ParseFloat" s) else None)
          | _ => bad
          end
      end
  end.

End Strconv.

(** ** Package fmt *)

Module Fmt.

(** [n] written with exactly [width] digits (the low ones, if it has more). *)
Fixpoint zero_pad (width : nat) (n : Z) (acc : string) : string :=
  match width with
  | O => acc
  | S w => zero_pad w (n / 10) (String (digit_char (n mod 10)) acc)
  end.

Definition digits (u : Z) (acc : string) : string :=
  Strconv.formatBits (S (Z.to_nat (Z.log2 u))) u acc.

(** The integer nearest to [num / den], ties to the even one. *)
Definition round_half_even (num den : Z) : Z :=
  let q := num / den in
  let r := num mod den in
  match 2 * r ?= den with
  | Lt => q
  | Gt => q + 1
  | Eq => if Z.even q then q else q + 1
  end.

(** [Sprintf("%d", v)] for an [int] or [int64]. *)
Definition Sprintf_d (v : Z) : string := Strconv.FormatInt v.

(** [Sprintf("%f", v)] for a [float64]: fixed point with the default
    precision of six digits after the point; the sign is printed for every
    negative number, also when it rounds to zero. *)
Definition Sprintf_f (v : Strconv.float64) : string :=
  let sign (s : bool) (t : string) := if s then String "-" t else t in
  let fixed (q : Z) := digits (q / 10 ^ 6) (String "." (zero_pad 6 (q mod 10 ^ 6) EmptyString)) in
  match v with
  | S754_nan => "NaN"
  | S754_infinity s => if s then "-Inf" else "+Inf"
  | S754_zero s => sign s (fixed 0)
  | S754_finite s m e =>
      let q := if e >=? 0 then Zpos m * 2 ^ e * 10 ^ 6
               else round_half_even (Zpos m * 10 ^ 6) (2 ^ (- e)) in
      sign s (fixed q)
  end.

End Fmt.

(** ** Package time *)

Module Time.

(** A location is UTC or a zone at a fixed number of seconds east of UTC (as
    made by [time.FixedZone]); zones whose offset changes with the date are
    not modelled. *)
Inductive Location :=
| UTC
| FixedZone (name : string) (offset : Z).

(** An instant: seconds since 1970-01-01T00:00:00Z, nanoseconds within the
    second, and the location its fields are presented in. *)
Record Time := mkTime {
  unixSec : Z;
  nsec : Z;
  loc : Location
}.

(** [Time{}]: January 1 of year 1, 00:00:00 UTC. *)
Definition zero : Time := mkTime (-62135596800) 0 UTC.

Definition offset (l : Location) : Z :=
  match l with
  | UTC => 0
  | FixedZone _ off => off
  end.

(** [t.UTC()]: the same instant, presented in UTC. *)
Definition toUTC (t : Time) : Time := mkTime (unixSec t) (nsec t) UTC.

Definition isLeap (year : Z) : bool :=
  (Z.rem year 4 =? 0) && (negb (Z.rem year 100 =? 0) || (Z.rem year 400 =? 0)).

Definition daysIn (m year : Z) : Z :=
  if (m =? 2) && isLeap year then 29
  else nth (Z.to_nat (m - 1)) [31; 28; 31; 30; 31; 30; 31; 31; 30; 31; 30; 31] 0.

(** Days since 1970-01-01 of a date of the proleptic Gregorian calendar.  The
    year is counted from March, in eras of 400 years. *)
Definition days_from_civil (y m d : Z) : Z :=
  let y := if m <=? 2 then y - 1 else y in
  let era := y / 400 in
  let yoe := y - era * 400 in
  let doy := (153 * (if m >? 2 then m - 3 else m + 9) + 2) / 5 + d - 1 in
  let doe := yoe * 365 + yoe / 4 - yoe / 100 + doy in
  era * 146097 + doe - 719468.

(** The date of a day number: year, month, day of the month. *)
Definition civil_from_days (z : Z) : Z * Z * Z :=
  let z := z + 719468 in
  let era := z / 146097 in
  let doe := z - era * 146097 in
  let yoe := (doe - doe / 1460 + doe / 36524 - doe / 146096) / 365 in
  let doy := doe - (365 * yoe + yoe / 4 - yoe / 100) in
  let mp := (5 * doy + 2) / 153 in
  let d := doy - (153 * mp + 2) / 5 + 1 in
  let m := if mp <? 10 then mp + 3 else mp - 9 in
  (if m <=? 2 then yoe + era * 400 + 1 else yoe + era * 400, m, d).

(** [Date(year, month, day, hour, min, sec, nsec, loc)]; values out of their
    range carry over into the next field. *)
Definition Date (year month day hour min sec ns : Z) (l : Location) : Time :=
  let year := year + (month - 1) / 12 in
  let month := (month - 1) mod 12 + 1 in
  let sec := sec + ns / 1000000000 in
  let ns := ns mod 1000000000 in
  mkTime (days_from_civil year month day * 86400 + hour * 3600 + min * 60 + sec - offset l)
         ns l.

(** The clock and calendar fields of [t] in its own location. *)
Record fields := mkFields {
  f_year : Z; f_month : Z; f_day : Z;
  f_hour : Z; f_min : Z; f_sec : Z; f_nsec : Z
}.

Definition fields_of (t : Time) : fields :=
  let abs := unixSec t + offset (loc t) in
  let '(y, m, d) := civil_from_days (abs / 86400) in
  let s := abs mod 86400 in
  mkFields y m d (s / 3600) (s mod 3600 / 60) (s mod 60) (nsec t).

(** The elements of a layout that the codec's layout uses. *)
Inductive chunk :=
| stdLongYear          (* "2006" *)
| stdZeroMonth         (* "01" *)
| stdZeroDay           (* "02" *)
| stdHour              (* "15" *)
| stdZeroMinute        (* "04" *)
| stdZeroSecond        (* "05" *)
| lit (s : string).    (* bytes standing for themselves *)

Fixpoint zeros (n : nat) : string :=
  match n with
  | O => EmptyString
  | S n' => String "0" (zeros n')
  end.

(** [appendInt]: [x] in decimal, padded with zeros to [width] digits. *)
Definition appendInt (x : Z) (width : nat) : string :=
  let ds := Fmt.digits (Z.abs x) EmptyString in
  let padded := zeros (width - String.length ds) ++ ds in
  if x <? 0 then String "-" padded else padded.

Definition format_chunk (f : fields) (c : chunk) : string :=
  match c with
  | stdLongYear => appendInt (f_year f) 4
  | stdZeroMonth => appendInt (f_month f) 2
  | stdZeroDay => appendInt (f_day f) 2
  | stdHour => appendInt (f_hour f) 2
  | stdZeroMinute => appendInt (f_min f) 2
  | stdZeroSecond => appendInt (f_sec f) 2
  | lit s => s
  end.

(** [t.Format(layout)], the layout given by its elements. *)
Definition Format (t : Time) (layout : list chunk) : string :=
  String.concat EmptyString (map (format_chunk (fields_of t)) layout).

(** [getnum]: one or two digits; two are required when [fixed]. *)
Definition getnum (s : string) (fixed : bool) : option (Z * string) :=
  match s with
  | String c0 rest =>
      if isDigit c0 then
        match rest with
        | String c1 rest' =>
            if isDigit c1 then Some ((byte c0 - 48) * 10 + (byte c1 - 48), rest')
            else if fixed then None else Some (byte c0 - 48, rest)
        | EmptyString => if fixed then None else Some (byte c0 - 48, rest)
        end
      else None
  | EmptyString => None
  end.

(** [skip]: [value] without the literal [prefix] (the layout has no spaces). *)
Fixpoint skip (value prefix : string) {struct prefix} : option string :=
  match prefix with
  | EmptyString => Some value
  | String p prefix' =>
      match value with
      | String c value' => if Ascii.eqb c p then skip value' prefix' else None
      | EmptyString => None
      end
  end.

(** The digits of a fractional second: at most nine count, the others are
    read and dropped.  [n] digits have been taken into [ns]. *)
Fixpoint readFraction (s : string) (n : nat) (ns : Z) : Z * string :=
  match s with
  | String c s' =>
      if isDigit c
      then if (n <? 9)%nat then readFraction s' (S n) (ns * 10 + (byte c - 48))
           else readFraction s' n ns
      else (ns * 10 ^ Z.of_nat (9 - n), s)
  | EmptyString => (ns * 10 ^ Z.of_nat (9 - n), s)
  end.

Definition commaOrPeriod (c : ascii) : bool := Ascii.eqb c "." || Ascii.eqb c ",".

Definition bad (value msg : string) : error := ErrTimeParse value msg.

(** One element of the layout read from the front of [value]: the fields so
    far, updated, and the rest of the value.  [whole] is the whole input. *)
Definition parse_chunk (whole : string) (c : chunk) (f : fields) (value : string)
  : fields * string + error :=
  let num (fixed : bool) (lo hi : Z) (what : string) (set : Z -> fields) :=
    match getnum value fixed with
    | None => inr (bad whole "")
    | Some (n, rest) =>
        if (n <? lo) || (hi <? n) then inr (bad whole (": " ++ what ++ " out of range"))
        else inl (set n, rest)
    end in
  match c with
  | lit s =>
      match skip value s with
      | Some rest => inl (f, rest)
      | None => inr (bad whole "")
      end
  | stdLongYear =>
      match value with
      | String a (String b (String c (String d rest))) =>
          if isDigit a && isDigit b && isDigit c && isDigit d
          then inl (mkFields ((((byte a - 48) * 10 + (byte b - 48)) * 10 + (byte c - 48)) * 10
                              + (byte d - 48))
                             (f_month f) (f_day f) (f_hour f) (f_min f) (f_sec f) (f_nsec f),
                    rest)
          else inr (bad whole "")
      | _ => inr (bad whole "")
      end
  | stdZeroMonth =>
      num true 1 12 "month" (fun n =>
        mkFields (f_year f) n (f_day f) (f_hour f) (f_min f) (f_sec f) (f_nsec f))
  | stdZeroDay =>
      (* any two digits here; the day is checked against the month at the end *)
      num true 0 99 "day" (fun n =>
        mkFields (f_year f) (f_month f) n (f_hour f) (f_min f) (f_sec f) (f_nsec f))
  | stdHour =>
      num false 0 23 "hour" (fun n =>
        mkFields (f_year f) (f_month f) (f_day f) n (f_min f) (f_sec f) (f_nsec f))
  | stdZeroMinute =>
      num true 0 59 "minute" (fun n =>
        mkFields (f_year f) (f_month f) (f_day f) (f_hour f) n (f_sec f) (f_nsec f))
  | stdZeroSecond =>
      match getnum value true with
      | None => inr (bad whole "")
      | Some (n, rest) =>
          if (n <? 0) || (59 <? n) then inr (bad whole ": second out of range")
          else
            let g := mkFields (f_year f) (f_month f) (f_day f) (f_hour f) (f_min f) n in
            (* a fractional second in the value although the layout has none *)
            match rest with
            | String p (String d rest') =>
                if commaOrPeriod p && isDigit d
                then let '(ns, rest'') := readFraction (String d rest') 0 0 in
                     inl (g ns, rest'')
                else inl (g (f_nsec f), rest)
            | _ => inl (g (f_nsec f), rest)
            end
      end
  end.

Definition lowerhex (d : Z) : ascii :=
  if d <? 10 then ascii_of_N (Z.to_N (48 + d)) else ascii_of_N (Z.to_N (87 + d)).

Definition double_quote : ascii := ascii_of_N 34.
Definition backslash : ascii := ascii_of_N 92.

(** The bytes of [quote(s)] between the quotes: a backslash goes before a
    quote and before a backslash, and a control character or a character
    outside ASCII is written byte by byte as a backslash, [x] and two
    hexadecimal digits.  The bytes of a character outside ASCII, well formed
    or not, are all 0x80 or more, so that the loop over the characters of the
    string is a loop over its bytes. *)
Fixpoint quote_bytes (s : string) : string :=
  match s with
  | EmptyString => EmptyString
  | String c s' =>
      if (128 <=? byte c) || (byte c <? 32)
      then String backslash (String "x" (String (lowerhex (Z.shiftr (byte c) 4))
             (String (lowerhex (Z.land (byte c) 15)) (quote_bytes s'))))
      else if Ascii.eqb c double_quote || Ascii.eqb c backslash
      then String backslash (String c (quote_bytes s'))
      else String c (quote_bytes s')
  end.

Definition quote (s : string) : string :=
  String double_quote (quote_bytes s ++ String double_quote EmptyString).

Fixpoint parse_chunks (whole : string) (layout : list chunk) (f : fields) (value : string)
  : fields + error :=
  match layout with
  | [] => match value with
          | EmptyString => inl f
          | _ => inr (bad whole (": extra text: " ++ quote value))
          end
  | c :: layout' =>
      match parse_chunk whole c f value with
      | inl (f', rest) => parse_chunks whole layout' f' rest
      | inr e => inr e
      end
  end.

(** [time.Parse(layout, value)]: a layout without zone information gives a
    time in UTC; on an error the zero [Time] comes with it. *)
Definition Parse (layout : list chunk) (value : string) : Time * option error :=
  match parse_chunks value layout (mkFields 0 1 1 0 0 0 0) value with
  | inr e => (zero, Some e)
  | inl f =>
      if (f_day f <? 1) || (daysIn (f_month f) (f_year f) <? f_day f)
      then (zero, Some (bad value ": day out of range"))
      else (Date (f_year f) (f_month f) (f_day f) (f_hour f) (f_min f) (f_sec f)
                 (f_nsec f) UTC, None)
  end.

End Time.

(** ** Package unicode/utf8 *)

Module Utf8.

Definition cont (c : ascii) : bool := (128 <=? byte c) && (byte c <=? 191).

Definition two (a b : ascii) : bool :=
  (194 <=? byte a) && (byte a <=? 223) && cont b.

Definition three (a b c : ascii) : bool :=
  cont c &&
  (((byte a =? 224) && (160 <=? byte b) && (byte b <=? 191))
   || ((((225 <=? byte a) && (byte a <=? 236)) || ((238 <=? byte a) && (byte a <=? 239)))
       && cont b)
   || ((byte a =? 237) && (128 <=? byte b) && (byte b <=? 159))).

Definition four (a b c d : ascii) : bool :=
  cont c && cont d &&
  (((byte a =? 240) && (144 <=? byte b) && (byte b <=? 191))
   || ((241 <=? byte a) && (byte a <=? 243) && cont b)
   || ((byte a =? 244) && (128 <=? byte b) && (byte b <=? 143))).

(** U+FFFD, the replacement character, in UTF-8. *)
Definition replacement (t : string) : string :=
  String (ascii_of_N 239) (String (ascii_of_N 191) (String (ascii_of_N 189) t)).

(** [ValidString]. *)
Fixpoint valid (s : string) : bool :=
  match s with
  | EmptyString => true
  | String a s1 =>
      if byte a <? 128 then valid s1
      else
        match s1 with
        | String b s2 =>
            if two a b then valid s2
            else
              match s2 with
              | String c s3 =>
                  if three a b c then valid s3
                  else
                    match s3 with
                    | String d s4 => if four a b c d then valid s4 else false
                    | EmptyString => false
                    end
              | EmptyString => false
              end
        | EmptyString => false
        end
  end.

(** What the JSON encoder writes for a string and the decoder reads back:
    every byte that does not start a well-formed encoding becomes U+FFFD. *)
Fixpoint coerce (s : string) : string :=
  match s with
  | EmptyString => EmptyString
  | String a s1 =>
      if byte a <? 128 then String a (coerce s1)
      else
        match s1 with
        | String b s2 =>
            if two a b then String a (String b (coerce s2))
            else
              match s2 with
              | String c s3 =>
                  if three a b c then String a (String b (String c (coerce s3)))
                  else
                    match s3 with
                    | String d s4 =>
                        if four a b c d
                        then String a (String b (String c (String d (coerce s4))))
                        else replacement (coerce s1)
                    | EmptyString => replacement (coerce s1)
                    end
              | EmptyString => replacement (coerce s1)
              end
        | EmptyString => replacement (coerce s1)
        end
  end.

End Utf8.

(** ** Package encoding/json *)

Module Json.

(** A JSON document. *)
Inductive json :=
| JNull
| JBool (b : bool)
| JNumber (literal : string)
| JString (s : string)
| JArray (elems : list json)
| JObject (members : list (string * json)).

(** A struct all of whose fields are strings tagged [json:"name,omitempty"]:
    the names in the order of declaration, each with the field's value. *)
Definition strings_struct := list (string * string).

Definition Marshal_string (s : string) : json := JString (Utf8.coerce s).

(** [Marshal] of such a struct: an object with the non-empty fields, in the
    order of declaration. *)
Definition Marshal_struct (st : strings_struct) : json :=
  JObject (map (fun kv => (fst kv, Marshal_string (snd kv)))
               (filter (fun kv => negb (String.eqb (snd kv) EmptyString)) st)).

(** [foldName]: keys are matched to field names without regard to case.
    Besides the ASCII letters, the Kelvin sign folds with [K] and the long s
    with [S]; the other letters outside ASCII, which fold among themselves,
    are left as they are: they match no name made of ASCII letters. *)
Fixpoint foldName (s : string) : string :=
  match s with
  | EmptyString => EmptyString
  | String a s1 =>
      if (97 <=? byte a) && (byte a <=? 122)
      then String (ascii_of_N (Z.to_N (byte a - 32))) (foldName s1)
      else
        match s1 with
        | String b s2 =>
            if (byte a =? 197) && (byte b =? 191) then String "S" (foldName s2)
            else
              match s2 with
              | String c s3 =>
                  if (byte a =? 226) && (byte b =? 132) && (byte c =? 170)
                  then String "K" (foldName s3)
                  else String a (foldName s1)
              | EmptyString => String a (foldName s1)
              end
        | EmptyString => String a (foldName s1)
        end
  end.

Definition kind (j : json) : string :=
  match j with
  | JNull => "null"
  | JBool _ => "bool"
  | JNumber _ => "number"
  | JString _ => "string"
  | JArray _ => "array"
  | JObject _ => "object"
  end.

(** Store [v] in the field that [key] names, if there is one. *)
Fixpoint set_field (st : strings_struct) (key v : string) : strings_struct :=
  match st with
  | [] => []
  | (name, old) :: st' =>
      if String.eqb (foldName name) (foldName key)
      then (name, v) :: st'
      else (name, old) :: set_field st' key v
  end.

Definition has_field (st : strings_struct) (key : string) : bool :=
  existsb (fun kv => String.eqb (foldName (fst kv)) (foldName key)) st.

(** The members of an object decoded in turn: a string goes into its field
    (a later member for the same field replaces an earlier one), [null] and
    members naming no field are passed over, and a value of another kind is
    a type error, the first of which is kept while decoding goes on. *)
Fixpoint decode_members (ms : list (string * json)) (st : strings_struct) (err : option error)
  : strings_struct * option error :=
  match ms with
  | [] => (st, err)
  | (key, v) :: ms' =>
      if has_field st key then
        match v with
        | JString s => decode_members ms' (set_field st key s) err
        | JNull => decode_members ms' st err
        | _ => decode_members ms' st
                 (match err with Some _ => err | None => Some (ErrJSONType (kind v)) end)
        end
      else decode_members ms' st err
  end.

(** [Unmarshal(b, &st)]: only an object or [null] can be stored in a struct. *)
Definition Unmarshal_struct (b : json) (st : strings_struct) : strings_struct * option error :=
  match b with
  | JObject ms => decode_members ms st None
  | JNull => (st, None)
  | _ => (st, Some (ErrJSONType (kind b)))
  end.

End Json.

(** ** Package trello: the custom-field codec *)

Import Json.

Record cfval := mk_cfval {
  Text : string;
  Number : string;
  Date : string;
  Checked : string
}.

(** The fields of [cfval] with their JSON names, in the order of declaration. *)
Definition cfval_struct (c : cfval) : strings_struct :=
  [("text", Text c); ("number", Number c); ("date", Date c); ("checked", Checked c)].

Definition field (st : strings_struct) (name : string) : string :=
  match find (fun kv => String.eqb (fst kv) name) st with
  | Some kv => snd kv
  | None => EmptyString
  end.

Definition cfval_of_struct (st : strings_struct) : cfval :=
  mk_cfval (field st "text") (field st "number") (field st "date") (field st "checked").

(** What an [interface{}] can hold, as far as the codec tells values apart:
    the types of its type switch, the [nil] interface and, under [VOther], a
    value of any other dynamic type (named by the type).  [VValuer res err]
    is a [driver.Valuer] whose [Value()] returns [(res, err)].  A value of
    this type is a finite chain of such sources, each of which returns: a
    source that returns itself, on which [MarshalJSON] does not return, and a
    nil pointer for a source, on whose call it panics, are no values of this
    type, and nothing below speaks of them. *)
Inductive value :=
| VNil
| VString (s : string)
| VInt (n : Z)
| VInt64 (n : Z)
| VFloat64 (f : Strconv.float64)
| VBool (b : bool)
| VTime (t : Time.Time)
| VCfval (c : cfval)
| VValuer (res : value) (err : option error)
| VOther (type_name : string).

Record CustomFieldValue := mkCustomFieldValue { val : value }.

Definition NewCustomFieldValue (v : value) : CustomFieldValue := mkCustomFieldValue v.

Definition Get (v : CustomFieldValue) : value := val v.

(** [const timeFmt = "2006-01-02T15:04:05Z"], as the time package splits it
    into elements; the final [Z] is no element of a layout but a literal. *)
Definition timeFmt : list Time.chunk :=
  [Time.stdLongYear; Time.lit "-"; Time.stdZeroMonth; Time.lit "-"; Time.stdZeroDay;
   Time.lit "T"; Time.stdHour; Time.lit ":"; Time.stdZeroMinute; Time.lit ":";
   Time.stdZeroSecond; Time.lit "Z"].

Definition marshal_cfval (c : cfval) : option json * option error :=
  (Some (Marshal_struct (cfval_struct c)), None).

(** The type switch of [MarshalJSON]; the [goto switchVal] of the
    [driver.Valuer] case is the recursive call, which ends because the chain
    of sources in a [value] does. *)
Fixpoint marshal_value (v : value) : option json * option error :=
  match v with
  | VValuer res err =>
      match err with
      | Some e => (None, Some e)
      | None => marshal_value res
      end
  | VString s =>
      if String.eqb s "" then (Some (Marshal_string ""), None)
      else marshal_cfval (mk_cfval s "" "" "")
  | VInt n | VInt64 n => marshal_cfval (mk_cfval "" (Fmt.Sprintf_d n) "" "")
  | VFloat64 f => marshal_cfval (mk_cfval "" (Fmt.Sprintf_f f) "" "")
  | VBool b =>
      if b then marshal_cfval (mk_cfval "" "" "" "true")
      else marshal_cfval (mk_cfval "" "" "" "false")
  | VTime t => marshal_cfval (mk_cfval "" "" (Time.Format t timeFmt) "")
  | VCfval c => marshal_cfval c
  | VNil | VOther _ => (None, Some (ErrMsg "unsupported type"))
  end.

Definition MarshalJSON (v : CustomFieldValue) : option json * option error :=
  marshal_value (val v).

(** The conversion of the [number] field: four attempts, each storing what it
    returns in the holder, the next one made only when the one before failed. *)
Definition unmarshal_number (number : string) : value * option error :=
  match Strconv.Atoi number with
  | (n, None) => (VInt n, None)
  | (_, Some _) =>
      match Strconv.ParseFloat number 64 with
      | (f, None) => (VFloat64 f, None)
      | (_, Some _) =>
          match Strconv.ParseFloat number 32 with
          | (f, None) => (VFloat64 f, None)
          | (_, Some _) =>
              match Strconv.ParseInt number 64 with
              | (i, None) => (VInt64 i, None)
              | (i, Some _) =>
                  (VInt64 i, Some (ErrMsg ("cannot convert " ++ number ++ " to number")))
              end
          end
      end
  end.

(** [json.Unmarshal(b, &c)] for a [cfval]. *)
Definition unmarshal_cfval (b : json) (c : cfval) : cfval * option error :=
  let '(st, err) := Unmarshal_struct b (cfval_struct c) in (cfval_of_struct st, err).

(** [UnmarshalJSON] on the holder [v]: the holder afterwards, and the error. *)
Definition UnmarshalJSON (v : CustomFieldValue) (b : json) : CustomFieldValue * option error :=
  match unmarshal_cfval b (mk_cfval "" "" "" "") with
  | (_, Some err) => (v, Some err)
  | (c, None) =>
      let v := if negb (String.eqb (Text c) "") then mkCustomFieldValue (VString (Text c)) else v in
      let '(v, err) :=
        if negb (String.eqb (Date c) "")
        then let '(t, err) := Time.Parse timeFmt (Date c) in (mkCustomFieldValue (VTime t), err)
        else (v, None) in
      match err with
      | Some e => (v, Some e)
      | None =>
          let v := if negb (String.eqb (Checked c) "")
                   then mkCustomFieldValue (VBool (String.eqb (Checked c) "true")) else v in
          if negb (String.eqb (Number c) "")
          then let '(x, err) := unmarshal_number (Number c) in (mkCustomFieldValue x, err)
          else (v, None)
      end
  end.

(** ** Package trello: setting a custom field *)

Record CustomFieldItem := mkCustomFieldItem {
  ID : string;
  Value : CustomFieldValue;
  IDValue : string;
  IDCustomField : string;
  IDModel : string;
  IDModelType : string
}.

(** A request handed to the HTTP layer. *)
Record Request (Arguments : Type) := mkRequest {
  req_method : string;
  req_path : string;
  req_args : Arguments;
  req_body : CustomFieldItem
}.
Arguments mkRequest {Arguments}.

Section Client.

(** [Arguments] and [flattenArguments] belong to the client's request
    helpers, which the codec only passes through. *)
Variable Arguments : Type.
Variable flattenArguments : list Arguments -> Arguments.

(** The answer of the remote service to a request. *)
Variable transport : Request Arguments -> option error.

(** The requests attempted so far, oldest first. *)
Definition Network := list (Request Arguments).

(** Modelled from the spec: [Client.PutJSON], whose source is not part of the
    files at hand.  It is the collaborator "capable of issuing a PUT with a
    JSON body to a path": it attempts one request and returns the outcome. *)
Definition PutJSON (path : string) (args : Arguments) (body : CustomFieldItem) (net : Network)
  : option error * Network :=
  let r := mkRequest "PUT" path args body in
  (transport r, (net ++ [r])%list).

Definition SetCustomFieldByItem (cfi : CustomFieldItem) (extraArgs : list Arguments)
    (net : Network) : option error * Network :=
  if negb (String.eqb (IDModelType cfi) "") && negb (String.eqb (IDModelType cfi) "card")
  then (Some (ErrMsg ("unsupported model type: " ++ IDModelType cfi)), net)
  else
    let path := "cards/" ++ IDModel cfi ++ "/customField/" ++ IDCustomField cfi ++ "/item" in
    let args := flattenArguments extraArgs in
    let cfValue := mkCustomFieldItem "" (Value cfi) "" "" "" "" in
    PutJSON path args cfValue net.

Definition SetCustomField (cardID customFieldID : string) (value : value)
    (extraArgs : list Arguments) (net : Network) : option error * Network :=
  let path := "cards/" ++ cardID ++ "/customField/" ++ customFieldID ++ "/item" in
  let args := flattenArguments extraArgs in
  let cfValue := mkCustomFieldItem "" (NewCustomFieldValue value) "" "" "" "" in
  PutJSON path args cfValue net.

End Client.

(** ** Package trello: items on the wire *)

(** The fields of [CustomFieldItem], each under its JSON name, in the order
    of declaration.  All are tagged [omitempty]; that leaves out an empty
    string but never [Value], which is a struct. *)
Inductive item_field := FID | FValue | FIDValue | FIDCustomField | FIDModel | FIDModelType.

Definition item_fields : list (string * item_field) :=
  [("id", FID); ("value", FValue); ("idValue", FIDValue);
   ("idCustomField", FIDCustomField); ("idModel", FIDModel); ("modelType", FIDModelType)].

Definition item_field_of (key : string) : option item_field :=
  match find (fun kf => String.eqb (foldName (fst kf)) (foldName key)) item_fields with
  | Some kf => Some (snd kf)
  | None => None
  end.

(** A member for a string field, unless the string is empty. *)
Definition string_member (name s : string) : list (string * json) :=
  if String.eqb s "" then [] else [(name, Marshal_string s)].

(** The error of [json.Marshal] when a [MarshalJSON] that it called has
    failed: [*json.MarshalerError], with the type of the value and the error
    it wraps. *)
Inductive marshal_error := MarshalerError (type_name : string) (err : error).

(** [json.Marshal(item)]: the encoder calls [MarshalJSON] for the [value]
    member, and an error of that call, wrapped, fails the whole item.  An
    empty output of [MarshalJSON] would not be a JSON text, which is an error
    of the same kind. *)
Definition marshal_item (it : CustomFieldItem) : option json * option marshal_error :=
  match MarshalJSON (Value it) with
  | (_, Some e) => (None, Some (MarshalerError "trello.CustomFieldValue" e))
  | (None, None) =>
      (None, Some (MarshalerError "trello.CustomFieldValue"
                     (ErrMsg "unexpected end of JSON input")))
  | (Some w, None) =>
      (Some (JObject (string_member "id" (ID it) ++ [("value", w)]
                      ++ string_member "idValue" (IDValue it)
                      ++ string_member "idCustomField" (IDCustomField it)
                      ++ string_member "idModel" (IDModel it)
                      ++ string_member "modelType" (IDModelType it))%list),
       None)
  end.

Definition set_item_string (it : CustomFieldItem) (f : item_field) (s : string)
  : CustomFieldItem :=
  match f with
  | FID => mkCustomFieldItem s (Value it) (IDValue it) (IDCustomField it) (IDModel it)
             (IDModelType it)
  | FValue => it
  | FIDValue => mkCustomFieldItem (ID it) (Value it) s (IDCustomField it) (IDModel it)
                  (IDModelType it)
  | FIDCustomField => mkCustomFieldItem (ID it) (Value it) (IDValue it) s (IDModel it)
                        (IDModelType it)
  | FIDModel => mkCustomFieldItem (ID it) (Value it) (IDValue it) (IDCustomField it) s
                  (IDModelType it)
  | FIDModelType => mkCustomFieldItem (ID it) (Value it) (IDValue it) (IDCustomField it)
                      (IDModel it) s
  end.

Definition set_item_value (it : CustomFieldItem) (v : CustomFieldValue) : CustomFieldItem :=
  mkCustomFieldItem (ID it) v (IDValue it) (IDCustomField it) (IDModel it) (IDModelType it).

(** The members of an object decoded into an item.  The [value] member, of
    whatever kind, goes to [UnmarshalJSON] on the item's holder, and an error
    of that call ends the decoding at once; the string fields are as in
    [Json.decode_members]. *)
Fixpoint decode_item_members (ms : list (string * json)) (it : CustomFieldItem)
    (saved : option error) : CustomFieldItem * option error :=
  match ms with
  | [] => (it, saved)
  | (key, v) :: ms' =>
      match item_field_of key with
      | None => decode_item_members ms' it saved
      | Some FValue =>
          match UnmarshalJSON (Value it) v with
          | (cv, Some e) => (set_item_value it cv, Some e)
          | (cv, None) => decode_item_members ms' (set_item_value it cv) saved
          end
      | Some f =>
          match v with
          | JString s => decode_item_members ms' (set_item_string it f s) saved
          | JNull => decode_item_members ms' it saved
          | _ => decode_item_members ms' it
                   (match saved with Some _ => saved | None => Some (ErrJSONType (kind v)) end)
          end
      end
  end.

(** [json.Unmarshal(b, &item)]. *)
Definition unmarshal_item (b : json) (it : CustomFieldItem) : CustomFieldItem * option error :=
  match b with
  | JObject ms => decode_item_members ms it None
  | JNull => (it, None)
  | _ => (it, Some (ErrJSONType (kind b)))
  end.

(** ** Tools of the proofs *)

(** [P] holds on the [n] integers from [lo] on. *)
Fixpoint all_from (P : Z -> bool) (lo : Z) (n : nat) : bool :=
  match n with
  | O => true
  | S n' => if P lo then all_from P (lo + 1) n' else false
  end.

(** [P] holds on the integers from [lo] up to, not including, [hi]. *)
Definition all_between (P : Z -> bool) (lo hi : Z) : bool :=
  all_from P lo (Z.to_nat (hi - lo)).

Fixpoint all_digits (s : string) : bool :=
  match s with
  | EmptyString => true
  | String c s' => isDigit c && all_digits s'
  end.

(** Two and four decimal digits in front of [rest]. *)
Definition two_digits (x : Z) (rest : string) : string :=
  String (digit_char (x / 10)) (String (digit_char (x mod 10)) rest).

Definition four_digits (x : Z) (rest : string) : string :=
  String (digit_char (x / 1000)) (String (digit_char (x / 100 mod 10))
    (String (digit_char (x / 10 mod 10)) (String (digit_char (x mod 10)) rest))).

(** The date of day [doe] of an era of 400 years is a date of the calendar,
    and counting its days gives [doe] back. *)
Definition civil_check (doe : Z) : bool :=
  let '(y, m, d) := Time.civil_from_days (doe - 719468) in
  (1 <=? m) && (m <=? 12) && (1 <=? d) && (d <=? Time.daysIn m y)
  && (Time.days_from_civil y m d =? doe - 719468).

Fixpoint ascii_only (s : string) : bool :=
  match s with
  | EmptyString => true
  | String c s' => (byte c <? 128) && ascii_only s'
  end.

(** A [cfval] as it comes back from the wire. *)
Definition coerced (c : cfval) : cfval :=
  mk_cfval (Utf8.coerce (Text c)) (Utf8.coerce (Number c)) (Utf8.coerce (Date c))
           (Utf8.coerce (Checked c)).

(** The wire object of a [cfval] read back into a holder. *)
Definition reread (h : CustomFieldValue) (c : cfval) : CustomFieldValue * option error :=
  UnmarshalJSON h (Marshal_struct (cfval_struct c)).

(** ** The statements compared with the code *)

(** What a value must satisfy to come back unchanged from the wire: a
    string is not empty and is well-formed UTF-8; an integer is an [int]; a
    float is not a NaN (which equals nothing, itself included) and is the
    float that its rendering with six decimals parses to; a timestamp is in
    UTC, on a whole second, in a year of four digits. *)
Definition survives (v : value) : Prop :=
  match v with
  | VString s => s <> "" /\ Utf8.valid s = true
  | VInt n => - 2 ^ 63 <= n < 2 ^ 63
  | VFloat64 f => f <> S754_nan /\ Strconv.ParseFloat (Fmt.Sprintf_f f) 64 = (f, None)
  | VBool _ => True
  | VTime t =>
      Time.loc t = Time.UTC /\ Time.nsec t = 0 /\
      0 <= Time.f_year (Time.fields_of t) <= 9999
  | _ => False
  end.

(** The reading "first match wins": the first populated field in the order
    text, date, checked, number gives the value. *)
Definition first_populated (h : CustomFieldValue) (c : cfval) : CustomFieldValue * option error :=
  if negb (String.eqb (Text c) "") then (mkCustomFieldValue (VString (Text c)), None)
  else if negb (String.eqb (Date c) "")
  then let '(t, err) := Time.Parse timeFmt (Date c) in (mkCustomFieldValue (VTime t), err)
  else if negb (String.eqb (Checked c) "")
  then (mkCustomFieldValue (VBool (String.eqb (Checked c) "true")), None)
  else if negb (String.eqb (Number c) "")
  then let '(x, err) := unmarshal_number (Number c) in (mkCustomFieldValue x, err)
  else (h, None).

(** The reading "last match wins": the last populated field in that order
    gives the value. *)
Definition last_populated (h : CustomFieldValue) (c : cfval) : CustomFieldValue * option error :=
  if negb (String.eqb (Number c) "")
  then let '(x, err) := unmarshal_number (Number c) in (mkCustomFieldValue x, err)
  else if negb (String.eqb (Checked c) "")
  then (mkCustomFieldValue (VBool (String.eqb (Checked c) "true")), None)
  else if negb (String.eqb (Date c) "")
  then let '(t, err) := Time.Parse timeFmt (Date c) in (mkCustomFieldValue (VTime t), err)
  else if negb (String.eqb (Text c) "") then (mkCustomFieldValue (VString (Text c)), None)
  else (h, None).

(** [v] behind [n] sources that each resolve without error. *)
Fixpoint resolving (n : nat) (v : value) : value :=
  match n with
  | O => v
  | S n' => VValuer (resolving n' v) None
  end.

(** What a chain of sources ends in. *)
Fixpoint resolved (v : value) : value :=
  match v with
  | VValuer res _ => resolved res
  | _ => v
  end.

(** The members [ms] are some of the [names], in their order, each with a
    string that is not empty. *)
Fixpoint members_of (names : list string) (ms : list (string * json)) : bool :=
  match names with
  | [] => match ms with [] => true | _ => false end
  | n :: names' =>
      match ms with
      | [] => true
      | (k, v) :: ms' =>
          if String.eqb k n
          then match v with
               | JString s => negb (String.eqb s "") && members_of names' ms'
               | _ => false
               end
          else members_of names' ms
      end
  end.

(** The shapes of a wire value: the bare empty string, or an object with
    some of the four fields. *)
Definition wire_shaped (j : json) : bool :=
  match j with
  | JString s => String.eqb s ""
  | JObject ms => members_of ["text"; "number"; "date"; "checked"] ms
  | _ => false
  end.

(** The time in UTC whose clock and calendar read what those of [t] read in
    its own location, on the whole second. *)
Definition wall_clock (t : Time.Time) : Time.Time :=
  Time.mkTime (Time.unixSec t + Time.offset (Time.loc t)) 0 Time.UTC.

(** The values the decoder leaves in a holder. *)
Definition decoded_kind (v : value) : Prop :=
  match v with
  | VString s => s <> ""
  | VInt n => - 2 ^ 63 <= n < 2 ^ 63
  | VFloat64 _ => True
  | VBool _ => True
  | VTime t => Time.loc t = Time.UTC
  | _ => False
  end.

Fixpoint no_slash (s : string) : bool :=
  match s with
  | EmptyString => true
  | String c s' => negb (Ascii.eqb c "/") && no_slash s'
  end.

Definition zero_item : CustomFieldItem :=
  mkCustomFieldItem "" (mkCustomFieldValue VNil) "" "" "" "".

(** The digits of a number that [ParseInt] accepts: what follows the sign. *)
Definition unsigned_part (s : string) : string :=
  match s with
  | String c0 s1 => if Ascii.eqb c0 "+" || Ascii.eqb c0 "-" then s1 else s
  | EmptyString => s
  end.

(** A date in the layout: twenty bytes, digits between the literals. *)
Definition layout_shaped (s : string) : bool :=
  match s with
  | String y1 (String y2 (String y3 (String y4 (String p1 (String m1 (String m2 (String p2
      (String d1 (String d2 (String pt (String h1 (String h2 (String c1 (String n1 (String n2
        (String c2 (String s1 (String s2 (String z EmptyString))))))))))))))))))) =>
      isDigit y1 && isDigit y2 && isDigit y3 && isDigit y4 && Ascii.eqb p1 "-"
      && isDigit m1 && isDigit m2 && Ascii.eqb p2 "-" && isDigit d1 && isDigit d2
      && Ascii.eqb pt "T" && isDigit h1 && isDigit h2 && Ascii.eqb c1 ":"
      && isDigit n1 && isDigit n2 && Ascii.eqb c2 ":" && isDigit s1 && isDigit s2
      && Ascii.eqb z "Z"
  | _ => false
  end.

(** ** Inputs of the examples *)

(** The floats nearest to 0.1234567, to 0.123457 and to 3.14. *)
Definition f_0_1234567 : Strconv.float64 := S754_finite false 8895992769862258 (-56).
Definition f_0_123457 : Strconv.float64 := S754_finite false 8896014387140469 (-56).
Definition f_3_14 : Strconv.float64 := S754_finite false 7070651414971679 (-51).

(** 2021-06-01T10:00:00Z, presented in a zone two hours east of UTC. *)
Definition noon_cest : Time.Time := Time.mkTime 1622541600 0 (Time.FixedZone "CEST" 7200).

(** The item of [TestSetCustomField]: no model type is given. *)
Definition probando : CustomFieldItem :=
  mkCustomFieldItem "" (NewCustomFieldValue (VString "probando")) ""
                    "57f5183c691585658d408681" "57f5183c691585658d408681" "".

(** A one followed by 309 zeros: too large for an [int64] and for a [float64]. *)
Definition ten_to_309 : string := String "1" (Time.zeros 309).

(** * Properties *)

Ltac zbool :=
  rewrite ?Z.geb_leb, ?Z.gtb_ltb;
  first [ apply Z.leb_gt | apply Z.ltb_ge | apply Z.leb_le | apply Z.ltb_lt
        | apply Z.eqb_eq | apply Z.eqb_neq ];
  lia.

(** ** The library on examples *)

Example Atoi_42 : Strconv.Atoi "42" = (42, None).
Proof. reflexivity. Qed.

Example Atoi_negative : Strconv.Atoi "-17" = (-17, None).
Proof. reflexivity. Qed.

Example Atoi_point : Strconv.Atoi "3.14" = (0, Some (ErrNum "Atoi" "3.14" ErrSyntax)).
Proof. reflexivity. Qed.

Example Atoi_too_large :
  Strconv.Atoi "9223372036854775808"
  = (9223372036854775807, Some (ErrNum "Atoi" "9223372036854775808" ErrRange)).
Proof. vm_compute. reflexivity. Qed.

Example ParseInt_smallest :
  Strconv.ParseInt "-9223372036854775809" 64
  = (-9223372036854775808, Some (ErrNum "ParseInt" "-9223372036854775809" ErrRange)).
Proof. vm_compute. reflexivity. Qed.

Example ParseFloat_3_14 : Strconv.ParseFloat "3.14" 64 = (f_3_14, None).
Proof. vm_compute. reflexivity. Qed.

Example ParseFloat_exponent :
  Strconv.ParseFloat "1.5e-1" 64 = (S754_finite false 5404319552844595 (-55), None).
Proof. vm_compute. reflexivity. Qed.

Example ParseFloat_overflow :
  Strconv.ParseFloat "1e309" 64
  = (S754_infinity false, Some (ErrNum "ParseFloat" "1e309" ErrRange)).
Proof. vm_compute. reflexivity. Qed.

Example ParseFloat_letters :
  Strconv.ParseFloat "abc" 64 = (S754_zero false, Some (ErrNum "ParseFloat" "abc" ErrSyntax)).
Proof. vm_compute. reflexivity. Qed.

Example ParseFloat_infinity : Strconv.ParseFloat "-Infinity" 64 = (S754_infinity true, None).
Proof. vm_compute. reflexivity. Qed.

Example ParseFloat_32_bits :
  Strconv.ParseFloat "3.14" 32 = (S754_finite false 7070651651194880 (-51), None).
Proof. vm_compute. reflexivity. Qed.

Example Sprintf_f_3_14 : Fmt.Sprintf_f f_3_14 = "3.140000".
Proof. vm_compute. reflexivity. Qed.

(** 1/128 = 0.0078125 lies halfway between two renderings; the even one is
    printed. *)
Example Sprintf_f_tie : Fmt.Sprintf_f (S754_finite false 1 (-7)) = "0.007812".
Proof. vm_compute. reflexivity. Qed.

Example Sprintf_f_negative_zero : Fmt.Sprintf_f (S754_zero true) = "-0.000000".
Proof. vm_compute. reflexivity. Qed.

Example Sprintf_d_smallest : Fmt.Sprintf_d (- 2 ^ 63) = "-9223372036854775808".
Proof. vm_compute. reflexivity. Qed.

Example Format_epoch : Time.Format (Time.mkTime 0 0 Time.UTC) timeFmt = "1970-01-01T00:00:00Z".
Proof. vm_compute. reflexivity. Qed.

Example Format_zero : Time.Format Time.zero timeFmt = "0001-01-01T00:00:00Z".
Proof. vm_compute. reflexivity. Qed.

Example Format_leap_day :
  Time.Format (Time.mkTime 951868799 0 Time.UTC) timeFmt = "2000-02-29T23:59:59Z".
Proof. vm_compute. reflexivity. Qed.

Example Format_year_10000 :
  Time.Format (Time.mkTime 253402300800 0 Time.UTC) timeFmt = "10000-01-01T00:00:00Z".
Proof. vm_compute. reflexivity. Qed.

Example Parse_2021 :
  Time.Parse timeFmt "2021-06-01T10:00:00Z" = (Time.mkTime 1622541600 0 Time.UTC, None).
Proof. vm_compute. reflexivity. Qed.

Example Parse_fraction :
  Time.Parse timeFmt "2021-06-01T10:00:00.5Z"
  = (Time.mkTime 1622541600 500000000 Time.UTC, None).
Proof. vm_compute. reflexivity. Qed.

Example Parse_no_leap_day :
  Time.Parse timeFmt "2021-02-29T10:00:00Z"
  = (Time.zero, Some (ErrTimeParse "2021-02-29T10:00:00Z" ": day out of range")).
Proof. vm_compute. reflexivity. Qed.

Example Parse_extra_text :
  Time.Parse timeFmt "2021-06-01T10:00:00Zx"
  = (Time.zero,
     Some (ErrTimeParse "2021-06-01T10:00:00Zx"
             (": extra text: "
              ++ String Time.double_quote (String "x" (String Time.double_quote EmptyString))))).
Proof. vm_compute. reflexivity. Qed.

Example coerce_stray_byte :
  Utf8.coerce (String (ascii_of_N 255) "a") = Utf8.replacement "a".
Proof. vm_compute. reflexivity. Qed.

Example Unmarshal_struct_case :
  unmarshal_cfval (JObject [("Text", JString "a"); ("other", JNumber "1"); ("date", JNull)])
                  (mk_cfval "" "" "" "")
  = (mk_cfval "a" "" "" "", None).
Proof. vm_compute. reflexivity. Qed.

Example Unmarshal_struct_number :
  unmarshal_cfval (JObject [("number", JNumber "1")]) (mk_cfval "" "" "" "")
  = (mk_cfval "" "" "" "", Some (ErrJSONType "number")).
Proof. vm_compute. reflexivity. Qed.

Example MarshalJSON_valuer :
  MarshalJSON (NewCustomFieldValue (VValuer (VValuer (VBool true) None) None))
  = (Some (JObject [("checked", JString "true")]), None).
Proof. vm_compute. reflexivity. Qed.

Example MarshalJSON_valuer_error :
  MarshalJSON (NewCustomFieldValue (VValuer VNil (Some (ErrMsg "no rows"))))
  = (None, Some (ErrMsg "no rows")).
Proof. vm_compute. reflexivity. Qed.

(** ** Exhaustive checks *)

Lemma all_from_spec (P : Z -> bool) (n : nat) :
  forall lo, all_from P lo n = true ->
  forall z, lo <= z < lo + Z.of_nat n -> P z = true.
Proof.
  induction n as [|n IH]; intros lo H z Hz.
  - simpl in Hz. lia.
  - cbn [all_from] in H. destruct (P lo) eqn:H0; [|discriminate].
    destruct (Z.eq_dec z lo) as [->|Hne]; [exact H0|].
    apply (IH (lo + 1) H). lia.
Qed.

Lemma all_between_spec (P : Z -> bool) (lo hi : Z) :
  all_between P lo hi = true -> forall z, lo <= z < hi -> P z = true.
Proof.
  intros H z Hz. apply (all_from_spec P (Z.to_nat (hi - lo)) lo H). lia.
Qed.

(** ** Integers in decimal *)

Lemma digit_char_spec (d : Z) :
  0 <= d < 10 -> isDigit (digit_char d) = true /\ byte (digit_char d) - 48 = d.
Proof.
  intros H.
  assert (E : (isDigit (digit_char d) && (byte (digit_char d) - 48 =? d)) = true).
  { apply (all_between_spec
             (fun d => isDigit (digit_char d) && (byte (digit_char d) - 48 =? d)) 0 10);
      [vm_compute; reflexivity | lia]. }
  apply andb_true_iff in E. destruct E as [E1 E2]. split; [exact E1|].
  apply Z.eqb_eq. exact E2.
Qed.

Lemma isDigit_not_sign (c : ascii) :
  isDigit c = true -> Ascii.eqb c "-" = false /\ Ascii.eqb c "+" = false.
Proof.
  intros H. split; apply Ascii.eqb_neq; intros ->; vm_compute in H; discriminate.
Qed.



Module StrconvFacts.
Import Strconv.

Lemma formatBits_S (fuel : nat) (u : Z) (acc : string) :
  formatBits (S fuel) u acc =
  if u >=? 10 then formatBits fuel (u / 10) (String (digit_char (u mod 10)) acc)
  else String (digit_char u) acc.
Proof. reflexivity. Qed.

Lemma formatBits_Atoi_fast (fuel : nat) :
  forall u acc, 0 <= u < 2 ^ Z.of_nat (S fuel) ->
  Atoi_fast (formatBits (S fuel) u acc) 0 = Atoi_fast acc u.
Proof.
  induction fuel as [|fuel IH]; intros u acc Hu.
  - assert (u < 10) by (change (2 ^ Z.of_nat 1) with 2 in Hu; lia).
    rewrite formatBits_S. replace (u >=? 10) with false by (symmetry; zbool).
    cbn [Atoi_fast]. destruct (digit_char_spec u) as [D1 D2]; [lia|]. rewrite D1, D2. reflexivity.
  - rewrite formatBits_S. destruct (u >=? 10) eqn:E.
    + rewrite IH.
      * cbn [Atoi_fast].
        destruct (digit_char_spec (u mod 10)) as [D1 D2]; [apply Z.mod_pos_bound; lia|].
        rewrite D1, D2. f_equal. pose proof (Z.div_mod u 10). lia.
      * rewrite (Nat2Z.inj_succ (S fuel)), Z.pow_succ_r in Hu by lia.
        split; [apply Z.div_pos; lia|].
        apply Z.div_lt_upper_bound; lia.
    + cbn [Atoi_fast].
      destruct (digit_char_spec u) as [D1 D2]; [lia|].
      rewrite D1, D2. reflexivity.
Qed.

Lemma formatBits_ParseUint_loop (s0 : string) (maxVal : Z) (fuel : nat) :
  maxVal <= maxUint64 ->
  forall u acc, 0 <= u < 2 ^ Z.of_nat (S fuel) -> u <= maxVal ->
  ParseUint_loop s0 maxVal (formatBits (S fuel) u acc) 0 = ParseUint_loop s0 maxVal acc u.
Proof.
  intros Hmax. unfold maxUint64 in Hmax.
  assert (step : forall n d acc, 0 <= n -> 0 <= d < 10 -> n * 10 + d <= maxVal ->
            ParseUint_loop s0 maxVal (String (digit_char d) acc) n
            = ParseUint_loop s0 maxVal acc (n * 10 + d)).
  { intros n d acc Hn Hd Hle. cbn [ParseUint_loop].
    destruct (digit_char_spec d Hd) as [D1 D2]. rewrite D1, D2. cbn [negb].
    unfold maxUint64. change ((2 ^ 64 - 1) / 10 + 1) with 1844674407370955162.
    change (2 ^ 64) with 18446744073709551616 in *.
    replace (n >=? 1844674407370955162) with false by (symmetry; zbool).
    rewrite Z.mod_small by lia.
    replace (n * 10 + d <? n * 10) with false by (symmetry; zbool).
    replace (n * 10 + d >? maxVal) with false by (symmetry; zbool).
    reflexivity. }
  induction fuel as [|fuel IH]; intros u acc Hu Hle.
  - assert (u < 10) by (change (2 ^ Z.of_nat 1) with 2 in Hu; lia).
    rewrite formatBits_S. replace (u >=? 10) with false by (symmetry; zbool).
    apply (step 0 u); lia.
  - rewrite formatBits_S. destruct (u >=? 10) eqn:E.
    + pose proof (Z.div_mod u 10 ltac:(lia)) as Hdm.
      pose proof (Z.mod_pos_bound u 10 ltac:(lia)) as Hm.
      assert (0 <= u / 10) by (apply Z.div_pos; lia).
      rewrite IH.
      * rewrite step by lia. f_equal. lia.
      * rewrite (Nat2Z.inj_succ (S fuel)), Z.pow_succ_r in Hu by lia.
        split; [lia|]. apply Z.div_lt_upper_bound; lia.
      * lia.
    + assert (u < 10) by (rewrite Z.geb_leb in E; apply Z.leb_gt in E; lia).
      change (digit_char u) with (digit_char u).
      apply (step 0 u); lia.
Qed.


Lemma formatBits_head (fuel : nat) :
  forall u acc, 0 <= u < 2 ^ Z.of_nat (S fuel) ->
  exists c t, formatBits (S fuel) u acc = String c t /\ isDigit c = true.
Proof.
  induction fuel as [|fuel IH]; intros u acc Hu.
  - assert (u < 10) by (change (2 ^ Z.of_nat 1) with 2 in Hu; lia).
    rewrite formatBits_S. replace (u >=? 10) with false by (symmetry; zbool).
    eexists _, _. split; [reflexivity|]. apply digit_char_spec. lia.
  - rewrite formatBits_S. destruct (u >=? 10) eqn:E.
    + apply IH. rewrite (Nat2Z.inj_succ (S fuel)), Z.pow_succ_r in Hu by lia.
      split; [apply Z.div_pos; lia|]. apply Z.div_lt_upper_bound; lia.
    + eexists _, _. split; [reflexivity|]. apply digit_char_spec.
      rewrite Z.geb_leb in E. apply Z.leb_gt in E. lia.
Qed.

Lemma log2_fuel (u : Z) : 0 <= u -> 0 <= u < 2 ^ Z.of_nat (S (Z.to_nat (Z.log2 u))).
Proof.
  intros Hu. split; [exact Hu|].
  rewrite Nat2Z.inj_succ, Z2Nat.id by apply Z.log2_nonneg.
  destruct (Z.eq_dec u 0) as [->|Hne]; [reflexivity|].
  apply Z.log2_spec. lia.
Qed.

Lemma Atoi_FormatInt (n : Z) :
  - 2 ^ 63 <= n < 2 ^ 63 -> Atoi (FormatInt n) = (n, None).
Proof.
  change (2 ^ 63) with 9223372036854775808. intros Hn.
  unfold FormatInt.
  set (u := Z.abs n). set (fuel := Z.to_nat (Z.log2 u)).
  assert (Hu : 0 <= u < 2 ^ Z.of_nat (S fuel)) by (apply log2_fuel; subst u; lia).
  destruct (formatBits_head fuel u EmptyString Hu) as (c & t & Hs & Hc).
  destruct (isDigit_not_sign c Hc) as [Hm Hp].
  pose proof (formatBits_Atoi_fast fuel u EmptyString Hu) as Hfast.
  pose proof (formatBits_ParseUint_loop) as Hslow.
  destruct (n <? 0) eqn:Hneg.
  - apply Z.ltb_lt in Hneg.
    assert (Hslow' : ParseUint (formatBits (S fuel) u "") 0 = (u, None)).
    { unfold ParseUint. rewrite Hs at 1. change (if 0 =? 0 then intSize else 0) with 64.
      rewrite Hslow; [reflexivity| apply Z.le_refl | exact Hu | ].
      change (2 ^ 64 - 1) with 18446744073709551615. subst u. lia. }
    unfold Atoi. destruct ((0 <? _) && (_ <? 19)).
    + cbn [Ascii.eqb Bool.eqb orb andb].
      rewrite Hfast. cbn [Atoi_fast].
      replace (len (formatBits (S fuel) u "") <? 1) with false.
      * f_equal. subst u. lia.
      * symmetry. rewrite Hs. unfold len. cbn [String.length]. zbool.
    + unfold ParseInt. cbn [Ascii.eqb Bool.eqb orb andb].
      rewrite Hslow'. cbn [Z.eqb intSize negb andb].
      change (2 ^ (intSize - 1)) with 9223372036854775808.
      replace (u >? 9223372036854775808) with false by (symmetry; subst u; zbool).
      f_equal. subst u. lia.
  - apply Z.ltb_ge in Hneg.
    assert (Hslow' : ParseUint (formatBits (S fuel) u "") 0 = (u, None)).
    { unfold ParseUint. rewrite Hs at 1. change (if 0 =? 0 then intSize else 0) with 64.
      rewrite Hslow; [reflexivity| apply Z.le_refl | exact Hu | ].
      change (2 ^ 64 - 1) with 18446744073709551615. subst u. lia. }
    unfold Atoi. destruct ((0 <? _) && (_ <? 19)).
    + rewrite Hs at 1. rewrite Hm, Hp. cbn [orb andb].
      rewrite Hfast. cbn [Atoi_fast]. f_equal. subst u. lia.
    + unfold ParseInt. rewrite Hs at 1. rewrite Hm, Hp. cbn [orb andb].
      rewrite Hslow'. cbn [Z.eqb intSize negb andb].
      change (2 ^ (intSize - 1)) with 9223372036854775808.
      replace (u >=? 9223372036854775808) with false by (symmetry; subst u; zbool).
      f_equal. subst u. lia.
Qed.


Lemma Atoi_fast_digits (s : string) :
  forall n m, Atoi_fast s n = Some m -> all_digits s = true.
Proof.
  induction s as [|c s IH]; intros n m H; [reflexivity|].
  cbn [Atoi_fast] in H. cbn [all_digits].
  destruct (isDigit c); [|discriminate]. exact (IH _ _ H).
Qed.

Lemma ParseUint_loop_result (s0 : string) (maxVal : Z) (s : string) :
  forall n x e, ParseUint_loop s0 maxVal s n = (x, e) ->
  match e with
  | None => all_digits s = true
  | Some (ErrNum _ _ ErrSyntax) => True
  | Some (ErrNum _ _ ErrRange) => x = maxVal
  | Some _ => False
  end.
Proof.
  induction s as [|c s IH]; intros n x e H; cbn [ParseUint_loop] in H.
  - injection H as <- <-. reflexivity.
  - cbn [all_digits]. destruct (isDigit c); cbn [negb] in H.
    + destruct (n >=? maxUint64 / 10 + 1).
      * injection H as <- <-. reflexivity.
      * destruct (_ || _).
        -- injection H as <- <-. reflexivity.
        -- exact (IH _ _ _ H).
    + injection H as <- <-. exact I.
Qed.

Lemma Atoi_ok_digits (s : string) (n : Z) :
  Atoi s = (n, None) -> exists c t, s = String c t /\ all_digits t = true.
Proof.
  unfold Atoi. destruct ((0 <? len s) && (len s <? 19)).
  - destruct s as [|c0 s1]; [discriminate|]. intros H. exists c0, s1. split; [reflexivity|].
    destruct (_ && (len _ <? 1)); [discriminate|].
    destruct (Atoi_fast _ 0) as [m|] eqn:E; [|discriminate].
    apply Atoi_fast_digits in E.
    destruct ((c0 =? "-")%char || (c0 =? "+")%char); [exact E|].
    cbn [all_digits] in E. apply andb_true_iff in E. apply E.
  - unfold ParseInt. destruct s as [|c0 s1]; [discriminate|]. intros H.
    exists c0, s1. split; [reflexivity|].
    set (s' := if ((c0 =? "+")%char || (c0 =? "-")%char)%bool then s1 else String c0 s1) in H.
    assert (Hd : all_digits s' = true).
    { unfold ParseUint in H.
      destruct s' as [|c' t'] eqn:Es'.
      - discriminate.
      - change (if 0 =? 0 then intSize else 0) with 64 in H.
        destruct (ParseUint_loop (String c' t') (2 ^ 64 - 1) (String c' t') 0) as [x e] eqn:E.
        apply ParseUint_loop_result in E.
        destruct e as [[fn num [|]| | |]|]; try contradiction; try discriminate.
        + subst x. change (2 ^ (intSize - 1)) with 9223372036854775808 in H.
          change (2 ^ 64 - 1) with 18446744073709551615 in H.
          destruct (c0 =? "-")%char; cbn in H; discriminate.
        + exact E. }
    subst s'. destruct ((c0 =? "+")%char || (c0 =? "-")%char); [exact Hd|].
    cbn [all_digits] in Hd. apply andb_true_iff in Hd. apply Hd.
Qed.

Lemma all_digits_point (p r : string) : all_digits (p ++ String "." r) = false.
Proof.
  induction p as [|c p IH]; [reflexivity|].
  cbn [append all_digits]. rewrite IH. apply andb_false_r.
Qed.

Lemma append_assoc (a b c : string) : (a ++ b) ++ c = a ++ (b ++ c).
Proof. induction a as [|x a IH]; [reflexivity|]. cbn [append]. rewrite IH. reflexivity. Qed.

Lemma formatBits_app (fuel : nat) :
  forall u acc, exists c p, formatBits (S fuel) u acc = String c (p ++ acc).
Proof.
  induction fuel as [|fuel IH]; intros u acc; rewrite formatBits_S.
  - destruct (u >=? 10); [exists (digit_char (u mod 10)) | exists (digit_char u)];
      exists EmptyString; reflexivity.
  - destruct (u >=? 10).
    + destruct (IH (u / 10) (String (digit_char (u mod 10)) acc)) as (c & p & E).
      exists c, (p ++ String (digit_char (u mod 10)) EmptyString).
      rewrite E. f_equal. rewrite append_assoc. reflexivity.
    + exists (digit_char u), EmptyString. reflexivity.
Qed.

Lemma Atoi_Sprintf_f (f : float64) : snd (Atoi (Fmt.Sprintf_f f)) <> None.
Proof.
  destruct (Atoi (Fmt.Sprintf_f f)) as [n [e|]] eqn:E; [discriminate|].
  exfalso. apply Atoi_ok_digits in E. destruct E as (c & t & Hs & Hd).
  assert (Hfixed : forall (s : bool) q c t,
            (if s then String "-" (Fmt.digits (q / 10 ^ 6) (String "." (Fmt.zero_pad 6 (q mod 10 ^ 6) EmptyString)))
             else Fmt.digits (q / 10 ^ 6) (String "." (Fmt.zero_pad 6 (q mod 10 ^ 6) EmptyString)))
            = String c t -> all_digits t = false).
  { clear. intros s q c t H. unfold Fmt.digits in H.
    destruct (formatBits_app (Z.to_nat (Z.log2 (q / 10 ^ 6))) (q / 10 ^ 6)
                (String "." (Fmt.zero_pad 6 (q mod 10 ^ 6) EmptyString))) as (c' & p & E).
    rewrite E in H. destruct s; injection H as <- <-.
    - apply (all_digits_point (String c' p)).
    - apply all_digits_point. }
  destruct f as [s|s| |s m e]; cbn [Fmt.Sprintf_f] in Hs.
  - rewrite (Hfixed _ _ _ _ Hs) in Hd. discriminate.
  - destruct s; injection Hs as <- <-; discriminate.
  - injection Hs as <- <-; discriminate.
  - rewrite (Hfixed _ _ _ _ Hs) in Hd. discriminate.
Qed.

End StrconvFacts.

(** ** Strings in UTF-8 *)

Lemma valid_coerce_len (n : nat) :
  forall s, (String.length s <= n)%nat -> Utf8.valid s = true -> Utf8.coerce s = s.
Proof.
  induction n as [|n IH]; intros s Hl Hv.
  - destruct s; [reflexivity|simpl in Hl; lia].
  - destruct s as [|a s1]; [reflexivity|].
    cbn [String.length] in Hl. cbn [Utf8.valid] in Hv. cbn [Utf8.coerce].
    destruct (byte a <? 128).
    + rewrite IH; [reflexivity|lia|exact Hv].
    + destruct s1 as [|b s2]; [discriminate|]. cbn [String.length] in Hl.
      destruct (Utf8.two a b).
      * rewrite IH; [reflexivity|lia|exact Hv].
      * destruct s2 as [|c s3]; [discriminate|]. cbn [String.length] in Hl.
        destruct (Utf8.three a b c).
        -- rewrite IH; [reflexivity|lia|exact Hv].
        -- destruct s3 as [|d s4]; [discriminate|]. cbn [String.length] in Hl.
           destruct (Utf8.four a b c d); [|discriminate].
           rewrite IH; [reflexivity|lia|exact Hv].
Qed.

Lemma valid_coerce (s : string) : Utf8.valid s = true -> Utf8.coerce s = s.
Proof. apply (valid_coerce_len (String.length s)). lia. Qed.

(** ** The calendar *)

Module TimeFacts.
Import Time.

Lemma rem_zero_mod (a n : Z) : n <> 0 -> (Z.rem a n =? 0) = (a mod n =? 0).
Proof.
  intros Hn. destruct (Z.eqb_spec (Z.rem a n) 0) as [E|E], (Z.eqb_spec (a mod n) 0) as [F|F];
    try reflexivity; exfalso.
  - apply F. apply Z.mod_divide; [exact Hn|]. apply Z.rem_divide; assumption.
  - apply E. apply Z.rem_divide; [exact Hn|]. apply Z.mod_divide; assumption.
Qed.

Lemma isLeap_era (y era : Z) : isLeap (y + 400 * era) = isLeap y.
Proof.
  unfold isLeap. rewrite !rem_zero_mod by lia.
  replace (y + 400 * era) with (y + (100 * era) * 4) at 1 by lia.
  replace (y + 400 * era) with (y + (4 * era) * 100) at 1 by lia.
  replace (y + 400 * era) with (y + era * 400) by lia.
  rewrite !Z_mod_plus_full. reflexivity.
Qed.

Lemma daysIn_era (m y era : Z) : daysIn m (y + 400 * era) = daysIn m y.
Proof. unfold daysIn. rewrite isLeap_era. reflexivity. Qed.

Lemma days_from_civil_era (y m d era : Z) :
  days_from_civil (y + 400 * era) m d = days_from_civil y m d + 146097 * era.
Proof.
  unfold days_from_civil. cbv zeta.
  set (y0 := if m <=? 2 then y - 1 else y).
  replace (if m <=? 2 then y + 400 * era - 1 else y + 400 * era) with (y0 + era * 400)
    by (subst y0; destruct (m <=? 2); lia).
  rewrite Z.div_add by lia.
  replace (y0 + era * 400 - (y0 / 400 + era) * 400) with (y0 - y0 / 400 * 400) by lia.
  lia.
Qed.

Lemma civil_from_days_era (era doe : Z) :
  0 <= doe < 146097 ->
  civil_from_days (era * 146097 + doe - 719468) =
  let '(y, m, d) := civil_from_days (doe - 719468) in (y + 400 * era, m, d).
Proof.
  intros Hdoe. unfold civil_from_days.
  replace (era * 146097 + doe - 719468 + 719468) with (doe + era * 146097) by lia.
  replace (doe - 719468 + 719468) with doe by lia.
  rewrite Z.div_add by lia. rewrite (Z.div_small doe 146097) by lia.
  replace (doe + era * 146097 - (0 + era) * 146097) with doe by lia.
  replace (doe - 0 * 146097) with doe by lia.
  cbv zeta.
  match goal with |- context [if ?b then _ else _] => destruct b end; f_equal; f_equal; lia.
Qed.

Lemma civil_check_era : all_between civil_check 0 146097 = true.
Proof. vm_compute. reflexivity. Qed.

Lemma civil_from_days_inv (z : Z) :
  let '(y, m, d) := civil_from_days z in
  1 <= m <= 12 /\ 1 <= d <= daysIn m y /\ days_from_civil y m d = z.
Proof.
  pose proof (Z.div_mod (z + 719468) 146097 ltac:(lia)) as Hdm.
  pose proof (Z.mod_pos_bound (z + 719468) 146097 ltac:(lia)) as Hb.
  set (era := (z + 719468) / 146097) in *. set (doe := (z + 719468) mod 146097) in *.
  replace z with (era * 146097 + doe - 719468) by lia.
  rewrite civil_from_days_era by exact Hb.
  pose proof (all_between_spec _ _ _ civil_check_era doe Hb) as Hc.
  unfold civil_check in Hc.
  destruct (civil_from_days (doe - 719468)) as [[y m] d].
  rewrite !andb_true_iff in Hc. destruct Hc as [[[[H1 H2] H3] H4] H5].
  apply Z.leb_le in H1, H2, H3, H4. apply Z.eqb_eq in H5.
  rewrite daysIn_era, days_from_civil_era. lia.
Qed.

Lemma daysIn_le_31 (m y : Z) : daysIn m y <= 31.
Proof.
  unfold daysIn. destruct ((m =? 2) && isLeap y); [lia|].
  destruct (Z.to_nat (m - 1)) as [|[|[|[|[|[|[|[|[|[|[|[|n]]]]]]]]]]]]; cbn; try lia.
  destruct n; cbn; lia.
Qed.

(** ** Formatting and parsing with the layout *)

Lemma appendInt_2 (x : Z) : 0 <= x < 100 -> appendInt x 2 = two_digits x EmptyString.
Proof.
  intros Hx. apply String.eqb_eq.
  apply (all_between_spec
           (fun x => String.eqb (appendInt x 2) (two_digits x EmptyString)) 0 100);
    [vm_compute; reflexivity | exact Hx].
Qed.

Lemma appendInt_4 (x : Z) : 0 <= x < 10000 -> appendInt x 4 = four_digits x EmptyString.
Proof.
  intros Hx. apply String.eqb_eq.
  apply (all_between_spec
           (fun x => String.eqb (appendInt x 4) (four_digits x EmptyString)) 0 10000);
    [vm_compute; reflexivity | exact Hx].
Qed.

Lemma getnum_two_digits (x : Z) (rest : string) (fixed : bool) :
  0 <= x < 100 -> getnum (two_digits x rest) fixed = Some (x, rest).
Proof.
  intros Hx. unfold getnum, two_digits.
  destruct (digit_char_spec (x / 10)) as [A1 A2];
    [split; [apply Z.div_pos; lia | apply Z.div_lt_upper_bound; lia]|].
  destruct (digit_char_spec (x mod 10)) as [B1 B2]; [apply Z.mod_pos_bound; lia|].
  rewrite A1, B1, A2, B2. do 2 f_equal. pose proof (Z.div_mod x 10). lia.
Qed.

Lemma fields_of_spec (t : Time) :
  let f := fields_of t in
  1 <= f_month f <= 12 /\ 1 <= f_day f <= daysIn (f_month f) (f_year f) /\
  0 <= f_hour f < 24 /\ 0 <= f_min f < 60 /\ 0 <= f_sec f < 60 /\ f_nsec f = nsec t /\
  days_from_civil (f_year f) (f_month f) (f_day f) * 86400
    + f_hour f * 3600 + f_min f * 60 + f_sec f = unixSec t + offset (loc t).
Proof.
  unfold fields_of. set (abs := unixSec t + offset (loc t)).
  pose proof (civil_from_days_inv (abs / 86400)) as H.
  destruct (civil_from_days (abs / 86400)) as [[y m] d]. cbn [f_year f_month f_day f_hour f_min f_sec f_nsec].
  destruct H as (Hm & Hd & Hdays). rewrite Hdays.
  pose proof (Z.div_mod abs 86400 ltac:(lia)).
  pose proof (Z.mod_pos_bound abs 86400 ltac:(lia)).
  set (r := abs mod 86400) in *.
  pose proof (Z.div_mod r 3600 ltac:(lia)).
  pose proof (Z.mod_pos_bound r 3600 ltac:(lia)).
  pose proof (Z.div_mod (r mod 3600) 60 ltac:(lia)).
  pose proof (Z.mod_pos_bound (r mod 3600) 60 ltac:(lia)).
  assert (r mod 60 = (r mod 3600) mod 60) as ->.
  { clear. Z.div_mod_to_equations. lia. }
  repeat split; lia.
Qed.

Lemma Format_timeFmt (t : Time) :
  let f := fields_of t in
  0 <= f_year f < 10000 ->
  Format t timeFmt =
  four_digits (f_year f) (String "-" (two_digits (f_month f) (String "-" (two_digits (f_day f)
    (String "T" (two_digits (f_hour f) (String ":" (two_digits (f_min f)
      (String ":" (two_digits (f_sec f) "Z")))))))))).
Proof.
  intros f Hy. destruct (fields_of_spec t) as (Hm & Hd & Hh & Hmi & Hs & _).
  fold f in Hm, Hd, Hh, Hmi, Hs.
  pose proof (daysIn_le_31 (f_month f) (f_year f)).
  unfold Format, timeFmt. fold f. cbn [map format_chunk String.concat].
  rewrite appendInt_4 by lia. rewrite !appendInt_2 by lia. reflexivity.
Qed.

Lemma parse_chunks_cons (w : string) (c : chunk) (l : list chunk) (f : fields) (v : string) :
  parse_chunks w (c :: l) f v =
  match parse_chunk w c f v with
  | inl (f', rest) => parse_chunks w l f' rest
  | inr e => inr e
  end.
Proof. reflexivity. Qed.

Lemma parse_lit (w : string) (c : ascii) (f : fields) (rest : string) :
  parse_chunk w (lit (String c EmptyString)) f (String c rest) = inl (f, rest).
Proof. cbn [parse_chunk skip]. rewrite Ascii.eqb_refl. reflexivity. Qed.

Lemma parse_year (w : string) (f : fields) (y : Z) (rest : string) :
  0 <= y < 10000 ->
  parse_chunk w stdLongYear f (four_digits y rest) =
  inl (mkFields y (f_month f) (f_day f) (f_hour f) (f_min f) (f_sec f) (f_nsec f), rest).
Proof.
  intros Hy. unfold four_digits. cbn [parse_chunk].
  pose proof (Z.div_mod y 10 ltac:(lia)). pose proof (Z.mod_pos_bound y 10 ltac:(lia)).
  pose proof (Z.div_mod (y / 10) 10 ltac:(lia)). pose proof (Z.mod_pos_bound (y / 10) 10 ltac:(lia)).
  pose proof (Z.div_mod (y / 100) 10 ltac:(lia)). pose proof (Z.mod_pos_bound (y / 100) 10 ltac:(lia)).
  assert (E1 : y / 10 / 10 = y / 100) by (rewrite Z.div_div by lia; reflexivity).
  assert (E2 : y / 100 / 10 = y / 1000) by (rewrite Z.div_div by lia; reflexivity).
  destruct (digit_char_spec (y / 1000)) as [A1 A2]; [lia|].
  destruct (digit_char_spec (y / 100 mod 10)) as [B1 B2]; [lia|].
  destruct (digit_char_spec (y / 10 mod 10)) as [C1 C2]; [lia|].
  destruct (digit_char_spec (y mod 10)) as [D1 D2]; [lia|].
  rewrite A1, B1, C1, D1, A2, B2, C2, D2. cbn [andb]. do 2 f_equal. f_equal. lia.
Qed.

Ltac parse_two x lo hi :=
  rewrite parse_chunks_cons; cbn [parse_chunk];
  rewrite getnum_two_digits by lia;
  replace (x <? lo) with false by (symmetry; zbool);
  replace (hi <? x) with false by (symmetry; zbool);
  cbn [orb].

Lemma parse_canonical (w : string) (f0 : fields) (y m d h mi s : Z) :
  0 <= y < 10000 -> 1 <= m <= 12 -> 0 <= d < 100 -> 0 <= h < 24 -> 0 <= mi < 60 -> 0 <= s < 60 ->
  parse_chunks w timeFmt f0
    (four_digits y (String "-" (two_digits m (String "-" (two_digits d
      (String "T" (two_digits h (String ":" (two_digits mi
        (String ":" (two_digits s "Z"))))))))))) =
  inl (mkFields y m d h mi s (f_nsec f0)).
Proof.
  intros Hy Hm Hd Hh Hmi Hs. unfold timeFmt.
  rewrite parse_chunks_cons, parse_year by exact Hy.
  rewrite parse_chunks_cons, parse_lit. parse_two m 1 12.
  rewrite parse_chunks_cons, parse_lit. parse_two d 0 99.
  rewrite parse_chunks_cons, parse_lit. parse_two h 0 23.
  rewrite parse_chunks_cons, parse_lit. parse_two mi 0 59.
  rewrite parse_chunks_cons, parse_lit. parse_two s 0 59.
  rewrite parse_chunks_cons, parse_lit.
  cbn [f_year f_month f_day f_hour f_min f_sec f_nsec parse_chunks]. reflexivity.
Qed.

Lemma Parse_Format (t : Time) :
  loc t = UTC -> nsec t = 0 -> 0 <= f_year (fields_of t) < 10000 ->
  Parse timeFmt (Format t timeFmt) = (t, None).
Proof.
  intros Hloc Hns Hy. rewrite Format_timeFmt by exact Hy.
  destruct (fields_of_spec t) as (Hm & Hd & Hh & Hmi & Hs & Hn & Habs).
  set (f := fields_of t) in *.
  pose proof (daysIn_le_31 (f_month f) (f_year f)).
  unfold Parse. rewrite parse_canonical by lia.
  cbn [f_year f_month f_day f_hour f_min f_sec f_nsec].
  replace (f_day f <? 1) with false by (symmetry; zbool).
  replace (daysIn (f_month f) (f_year f) <? f_day f) with false by (symmetry; zbool).
  cbn [orb]. f_equal. unfold Date.
  replace ((f_month f - 1) / 12) with 0 by (symmetry; apply Z.div_small; lia).
  replace ((f_month f - 1) mod 12 + 1) with (f_month f) by (rewrite Z.mod_small; lia).
  rewrite Z.add_0_r. change (0 / 1000000000) with 0. change (0 mod 1000000000) with 0.
  rewrite Z.add_0_r, Habs, Hloc. cbn [offset].
  destruct t as [u n l]. cbn [unixSec nsec loc] in *. subst. f_equal. lia.
Qed.

End TimeFacts.

(** ** Text that is ASCII *)

Lemma ascii_only_coerce (s : string) : ascii_only s = true -> Utf8.coerce s = s.
Proof.
  induction s as [|a s IH]; [reflexivity|]. cbn [ascii_only Utf8.coerce].
  intros H. apply andb_true_iff in H. destruct H as [H1 H2].
  rewrite H1, (IH H2). reflexivity.
Qed.

Lemma ascii_only_app (a b : string) : ascii_only (a ++ b) = ascii_only a && ascii_only b.
Proof.
  induction a as [|c a IH]; [reflexivity|]. cbn [append ascii_only]. rewrite IH.
  apply andb_assoc.
Qed.

Lemma digit_char_ascii (d : Z) : d < 10 -> (byte (digit_char d) <? 128) = true.
Proof.
  intros Hd. unfold digit_char, byte. rewrite N_ascii_embedding by lia. zbool.
Qed.

Lemma formatBits_ascii (fuel : nat) :
  forall u acc, ascii_only acc = true -> ascii_only (Strconv.formatBits fuel u acc) = true.
Proof.
  induction fuel as [|fuel IH]; intros u acc Hacc; [exact Hacc|].
  rewrite StrconvFacts.formatBits_S. destruct (u >=? 10) eqn:E.
  - apply IH. cbn [ascii_only]. rewrite Hacc, digit_char_ascii; [reflexivity|].
    apply Z.mod_pos_bound. lia.
  - cbn [ascii_only]. rewrite Hacc, digit_char_ascii; [reflexivity|].
    rewrite Z.geb_leb in E. apply Z.leb_gt in E. exact E.
Qed.

Lemma zero_pad_ascii (w : nat) :
  forall n acc, ascii_only acc = true -> ascii_only (Fmt.zero_pad w n acc) = true.
Proof.
  induction w as [|w IH]; intros n acc Hacc; [exact Hacc|].
  cbn [Fmt.zero_pad]. apply IH. cbn [ascii_only].
  rewrite Hacc, digit_char_ascii; [reflexivity|]. apply Z.mod_pos_bound. lia.
Qed.

Lemma FormatInt_ascii (n : Z) : ascii_only (Strconv.FormatInt n) = true.
Proof.
  unfold Strconv.FormatInt.
  destruct (n <? 0); cbn [ascii_only]; rewrite formatBits_ascii; reflexivity.
Qed.

Lemma FormatInt_nonempty (n : Z) : Strconv.FormatInt n <> "".
Proof.
  unfold Strconv.FormatInt. destruct (n <? 0); [discriminate|].
  destruct (StrconvFacts.formatBits_app (Z.to_nat (Z.log2 (Z.abs n))) (Z.abs n) "")
    as (c & p & E).
  rewrite E. discriminate.
Qed.

(** The shape of what [%f] prints for a finite number: an optional sign, the
    integer part, the point and six digits. *)
Lemma fixed_point_shape (s : bool) (q : Z) :
  let t := Fmt.digits (q / 10 ^ 6) (String "." (Fmt.zero_pad 6 (q mod 10 ^ 6) "")) in
  ascii_only (if s then String "-" t else t) = true
  /\ (if s then String "-" t else t) <> "".
Proof.
  intros t.
  assert (Ht : ascii_only t = true).
  { subst t. unfold Fmt.digits. apply formatBits_ascii. cbn [ascii_only].
    rewrite zero_pad_ascii; reflexivity. }
  split.
  - destruct s; cbn [ascii_only]; rewrite Ht; reflexivity.
  - destruct s; [discriminate|]. subst t. unfold Fmt.digits.
    destruct (StrconvFacts.formatBits_app (Z.to_nat (Z.log2 (q / 10 ^ 6))) (q / 10 ^ 6)
                (String "." (Fmt.zero_pad 6 (q mod 10 ^ 6) ""))) as (c & p & E).
    rewrite E. discriminate.
Qed.

Lemma Sprintf_f_ascii (f : Strconv.float64) : ascii_only (Fmt.Sprintf_f f) = true.
Proof.
  destruct f as [s|s| |s m e]; cbn [Fmt.Sprintf_f];
    try apply fixed_point_shape; try reflexivity.
  destruct s; reflexivity.
Qed.

Lemma Sprintf_f_nonempty (f : Strconv.float64) : Fmt.Sprintf_f f <> "".
Proof.
  destruct f as [s|s| |s m e]; cbn [Fmt.Sprintf_f];
    try apply fixed_point_shape; try discriminate.
  destruct s; discriminate.
Qed.

Lemma zeros_ascii (n : nat) : ascii_only (Time.zeros n) = true.
Proof.
  induction n as [|n IH]; [reflexivity|]. cbn [Time.zeros ascii_only]. rewrite IH. reflexivity.
Qed.

Lemma appendInt_ascii (x : Z) (w : nat) : ascii_only (Time.appendInt x w) = true.
Proof.
  unfold Time.appendInt.
  assert (H : ascii_only (Time.zeros (w - String.length (Fmt.digits (Z.abs x) ""))
                          ++ Fmt.digits (Z.abs x) "") = true).
  { rewrite ascii_only_app, zeros_ascii. unfold Fmt.digits. apply formatBits_ascii. reflexivity. }
  destruct (x <? 0); cbn [ascii_only]; rewrite H; reflexivity.
Qed.

Lemma Format_ascii (t : Time.Time) : ascii_only (Time.Format t timeFmt) = true.
Proof.
  unfold Time.Format, timeFmt. cbn [map Time.format_chunk String.concat].
  rewrite !ascii_only_app, !appendInt_ascii. reflexivity.
Qed.

Lemma Format_nonempty (t : Time.Time) :
  0 <= Time.f_year (Time.fields_of t) < 10000 -> Time.Format t timeFmt <> "".
Proof. intros H. rewrite TimeFacts.Format_timeFmt by exact H. discriminate. Qed.

Lemma eqb_empty_false (s : string) : s <> "" -> String.eqb s "" = false.
Proof. intros H. apply String.eqb_neq. exact H. Qed.

(** ** The wire object and the struct *)

Lemma unmarshal_marshal_cfval (c : cfval) :
  unmarshal_cfval (Marshal_struct (cfval_struct c)) (mk_cfval "" "" "" "") = (coerced c, None).
Proof.
  destruct c as [t n d k]. unfold unmarshal_cfval, Marshal_struct, cfval_struct, coerced.
  cbn [Text Number Date Checked filter fst snd].
  destruct (String.eqb_spec t ""), (String.eqb_spec n ""), (String.eqb_spec d ""),
    (String.eqb_spec k ""); subst; reflexivity.
Qed.

Lemma decode_members_error (ms : list (string * json)) :
  forall st err st' e, decode_members ms st err = (st', Some e) ->
  err = Some e \/ exists k, e = ErrJSONType k.
Proof.
  induction ms as [|[key v] ms IH]; intros st err st' e H; cbn [decode_members] in H.
  - injection H as _ <-. left. reflexivity.
  - destruct (has_field st key); [|exact (IH _ _ _ _ H)].
    destruct v; try exact (IH _ _ _ _ H);
      (apply IH in H; destruct H as [H|H]; [|right; exact H];
       destruct err as [e0|]; [left; exact H | right; injection H as <-; eexists; reflexivity]).
Qed.

Lemma unmarshal_cfval_error (b : json) (c0 c : cfval) (e : error) :
  unmarshal_cfval b c0 = (c, Some e) -> exists k, e = ErrJSONType k.
Proof.
  unfold unmarshal_cfval, Unmarshal_struct. intros H.
  destruct b; try (injection H as _ <-; eexists; reflexivity); try discriminate.
  destruct (decode_members members (cfval_struct c0) None) as [st [e'|]] eqn:E;
    [|discriminate].
  injection H as _ <-. apply decode_members_error in E.
  destruct E as [E|E]; [discriminate|exact E].
Qed.

(** ** The decoder, field by field *)

Lemma UnmarshalJSON_fields (h : CustomFieldValue) (b : json) (c : cfval) :
  unmarshal_cfval b (mk_cfval "" "" "" "") = (c, None) ->
  UnmarshalJSON h b =
  let v := if negb (String.eqb (Text c) "") then mkCustomFieldValue (VString (Text c)) else h in
  let '(v, err) :=
    if negb (String.eqb (Date c) "")
    then let '(t, err) := Time.Parse timeFmt (Date c) in (mkCustomFieldValue (VTime t), err)
    else (v, None) in
  match err with
  | Some e => (v, Some e)
  | None =>
      let v := if negb (String.eqb (Checked c) "")
               then mkCustomFieldValue (VBool (String.eqb (Checked c) "true")) else v in
      if negb (String.eqb (Number c) "")
      then let '(x, err) := unmarshal_number (Number c) in (mkCustomFieldValue x, err)
      else (v, None)
  end.
Proof. intros H. unfold UnmarshalJSON. rewrite H. reflexivity. Qed.

Lemma parse_chunk_error (w : string) (c : Time.chunk) (f : Time.fields) (v : string) (e : error) :
  Time.parse_chunk w c f v = inr e -> exists msg, e = ErrTimeParse w msg.
Proof.
  unfold Time.parse_chunk, Time.bad. intros H.
  destruct c;
    repeat match type of H with
           | inl _ = inr _ => discriminate
           | inr _ = inr _ => injection H as <-; eexists; reflexivity
           | context [match ?x with _ => _ end] => destruct x
           end.
Qed.

Lemma parse_chunks_error (w : string) (l : list Time.chunk) :
  forall f v e, Time.parse_chunks w l f v = inr e -> exists msg, e = ErrTimeParse w msg.
Proof.
  induction l as [|c l IH]; intros f v e H; cbn [Time.parse_chunks] in H.
  - destruct v; [discriminate|]. injection H as <-. eexists. reflexivity.
  - destruct (Time.parse_chunk w c f v) as [[f' rest]|e'] eqn:E.
    + exact (IH _ _ _ H).
    + injection H as <-. exact (parse_chunk_error _ _ _ _ _ E).
Qed.

(** [Parse] gives a time in UTC, or the zero time and a parse error. *)
Lemma Parse_result (l : list Time.chunk) (v : string) :
  match Time.Parse l v with
  | (t, None) => Time.loc t = Time.UTC
  | (t, Some e) => t = Time.zero /\ exists msg, e = ErrTimeParse v msg
  end.
Proof.
  unfold Time.Parse.
  destruct (Time.parse_chunks v l (Time.mkFields 0 1 1 0 0 0 0) v) as [f|e] eqn:E.
  - destruct (_ || _).
    + split; [reflexivity|]. eexists. reflexivity.
    + reflexivity.
  - split; [reflexivity|]. exact (parse_chunks_error _ _ _ _ _ E).
Qed.

(** What [ParseInt] returns next to an error. *)
Lemma ParseInt_error_value (s : string) (i : Z) (e : error) :
  Strconv.ParseInt s 64 = (i, Some e) -> i = 0 \/ i = 2 ^ 63 - 1 \/ i = - 2 ^ 63.
Proof.
  unfold Strconv.ParseInt.
  destruct s as [|c0 s1]; [intros H; injection H as <- _; left; reflexivity|].
  destruct (Strconv.ParseUint _ 64) as [un [[fn num [|]| | |]|]];
    change (if 64 =? 0 then Strconv.intSize else 64) with 64;
    change (2 ^ (64 - 1)) with (2 ^ 63);
    repeat match goal with
           | |- context [if ?x then _ else _] => destruct x
           end;
    intros H; try discriminate; injection H as <- _; tauto.
Qed.

Lemma unmarshal_number_error (s : string) (x : value) (e : error) :
  unmarshal_number s = (x, Some e) ->
  e = ErrMsg ("cannot convert " ++ s ++ " to number")
  /\ exists i, x = VInt64 i /\ (i = 0 \/ i = 2 ^ 63 - 1 \/ i = - 2 ^ 63).
Proof.
  unfold unmarshal_number.
  destruct (Strconv.Atoi s) as [n [ea|]]; [|discriminate].
  destruct (Strconv.ParseFloat s 64) as [f [e64|]]; [|discriminate].
  destruct (Strconv.ParseFloat s 32) as [g [e32|]]; [|discriminate].
  destruct (Strconv.ParseInt s 64) as [i [ei|]] eqn:E; [|discriminate].
  intros H. injection H as <- <-. split; [reflexivity|].
  exists i. split; [reflexivity|]. exact (ParseInt_error_value _ _ _ E).
Qed.

Lemma unmarshal_number_no_time (s : string) (t : Time.Time) :
  fst (unmarshal_number s) <> VTime t.
Proof.
  unfold unmarshal_number.
  destruct (Strconv.Atoi s) as [n [ea|]]; [|discriminate].
  destruct (Strconv.ParseFloat s 64) as [f [e64|]]; [|discriminate].
  destruct (Strconv.ParseFloat s 32) as [g [e32|]]; [|discriminate].
  destruct (Strconv.ParseInt s 64) as [i [ei|]]; discriminate.
Qed.

(** ** There and back *)

Lemma reread_text (h : CustomFieldValue) (s : string) :
  s <> "" -> Utf8.valid s = true ->
  reread h (mk_cfval s "" "" "") = (mkCustomFieldValue (VString s), None).
Proof.
  intros Hne Hvalid. unfold reread.
  rewrite (UnmarshalJSON_fields h _ _ (unmarshal_marshal_cfval _)).
  unfold coerced. cbn [Text Number Date Checked Utf8.coerce String.eqb negb].
  rewrite (valid_coerce s Hvalid), (eqb_empty_false s Hne). reflexivity.
Qed.

Lemma reread_int (h : CustomFieldValue) (n : Z) :
  - 2 ^ 63 <= n < 2 ^ 63 ->
  reread h (mk_cfval "" (Fmt.Sprintf_d n) "" "") = (mkCustomFieldValue (VInt n), None).
Proof.
  intros Hn. unfold reread.
  rewrite (UnmarshalJSON_fields h _ _ (unmarshal_marshal_cfval _)).
  unfold coerced. cbn [Text Number Date Checked Utf8.coerce String.eqb negb].
  unfold Fmt.Sprintf_d.
  rewrite (ascii_only_coerce _ (FormatInt_ascii n)).
  rewrite (eqb_empty_false _ (FormatInt_nonempty n)). cbn [negb].
  unfold unmarshal_number.
  rewrite (StrconvFacts.Atoi_FormatInt n Hn). reflexivity.
Qed.

(** A float is read back as the float its rendering parses to, never as an
    integer: the rendering has a point, or spells NaN or an infinity. *)
Lemma reread_float (h : CustomFieldValue) (f g : Strconv.float64) :
  Strconv.ParseFloat (Fmt.Sprintf_f f) 64 = (g, None) ->
  reread h (mk_cfval "" (Fmt.Sprintf_f f) "" "") = (mkCustomFieldValue (VFloat64 g), None).
Proof.
  intros Hparse. unfold reread.
  rewrite (UnmarshalJSON_fields h _ _ (unmarshal_marshal_cfval _)).
  unfold coerced. cbn [Text Number Date Checked Utf8.coerce String.eqb negb].
  rewrite (ascii_only_coerce _ (Sprintf_f_ascii f)).
  rewrite (eqb_empty_false _ (Sprintf_f_nonempty f)). cbn [negb].
  unfold unmarshal_number.
  pose proof (StrconvFacts.Atoi_Sprintf_f f) as Hatoi.
  destruct (Strconv.Atoi (Fmt.Sprintf_f f)) as [x [e|]]; [|exfalso; apply Hatoi; reflexivity].
  rewrite Hparse. reflexivity.
Qed.

Lemma reread_time (h : CustomFieldValue) (t : Time.Time) :
  Time.loc t = Time.UTC -> Time.nsec t = 0 ->
  0 <= Time.f_year (Time.fields_of t) <= 9999 ->
  reread h (mk_cfval "" "" (Time.Format t timeFmt) "") = (mkCustomFieldValue (VTime t), None).
Proof.
  intros Hloc Hns Hy. unfold reread.
  rewrite (UnmarshalJSON_fields h _ _ (unmarshal_marshal_cfval _)).
  unfold coerced. cbn [Text Number Date Checked Utf8.coerce String.eqb negb].
  rewrite (ascii_only_coerce _ (Format_ascii t)).
  rewrite (eqb_empty_false _ (Format_nonempty t ltac:(lia))). cbn [negb].
  rewrite (TimeFacts.Parse_Format t Hloc Hns ltac:(lia)). reflexivity.
Qed.

(** An [int64] comes back as the [int] of the same number. *)
Lemma roundtrip_int64_as_int (n : Z) (h : CustomFieldValue) :
  - 2 ^ 63 <= n < 2 ^ 63 ->
  exists j, MarshalJSON (NewCustomFieldValue (VInt64 n)) = (Some j, None)
            /\ UnmarshalJSON h j = (NewCustomFieldValue (VInt n), None).
Proof.
  intros Hn. eexists. split; [reflexivity|]. exact (reread_int h n Hn).
Qed.

(** Why [survives] asks what it asks: a byte that is not UTF-8 comes back as
    U+FFFD, and a year of five digits is written but not read. *)
Example stray_byte_not_kept :
  MarshalJSON (NewCustomFieldValue (VString (String (ascii_of_N 255) "")))
    = (Some (JObject [("text", JString (Utf8.replacement ""))]), None)
  /\ UnmarshalJSON (NewCustomFieldValue VNil) (JObject [("text", JString (Utf8.replacement ""))])
    = (NewCustomFieldValue (VString (Utf8.replacement "")), None).
Proof. split; vm_compute; reflexivity. Qed.

Example year_10000_not_read :
  MarshalJSON (NewCustomFieldValue (VTime (Time.mkTime 253402300800 0 Time.UTC)))
    = (Some (JObject [("date", JString "10000-01-01T00:00:00Z")]), None)
  /\ UnmarshalJSON (NewCustomFieldValue VNil) (JObject [("date", JString "10000-01-01T00:00:00Z")])
    = (NewCustomFieldValue (VTime Time.zero), Some (ErrTimeParse "10000-01-01T00:00:00Z" "")).
Proof. split; vm_compute; reflexivity. Qed.

Example nanoseconds_not_written :
  MarshalJSON (NewCustomFieldValue (VTime (Time.mkTime 1622541600 999999999 Time.UTC)))
    = (Some (JObject [("date", JString "2021-06-01T10:00:00Z")]), None).
Proof. vm_compute. reflexivity. Qed.

(** A timestamp in UTC with a year of four digits is written in the fixed
    format: the digits of its fields between the literals. *)
Lemma encode_time_utc (t : Time.Time) :
  Time.loc t = Time.UTC ->
  0 <= Time.f_year (Time.fields_of t) <= 9999 ->
  let f := Time.fields_of t in
  MarshalJSON (NewCustomFieldValue (VTime t)) =
  (Some (JObject [("date", JString
     (four_digits (Time.f_year f) (String "-" (two_digits (Time.f_month f) (String "-"
       (two_digits (Time.f_day f) (String "T" (two_digits (Time.f_hour f) (String ":"
         (two_digits (Time.f_min f) (String ":" (two_digits (Time.f_sec f) "Z"))))))))))))]),
   None).
Proof.
  intros Hloc Hy f. unfold MarshalJSON, NewCustomFieldValue. cbn [val marshal_value].
  unfold marshal_cfval, Marshal_struct, cfval_struct, Marshal_string.
  cbn [Text Number Date Checked filter fst snd String.eqb negb map].
  rewrite (eqb_empty_false _ (Format_nonempty t ltac:(lia))). cbn [negb map fst snd].
  rewrite (ascii_only_coerce _ (Format_ascii t)).
  rewrite TimeFacts.Format_timeFmt by lia. reflexivity.
Qed.

(** * The claims *)

(** ** C1: there and back *)

(** Claim C1, as stated, fails: the float nearest to 0.1234567 is written
    with six decimals, as 0.123457, and what is read back is the float
    nearest to 0.123457, another number. *)
Lemma roundtrip_float_counterexample :
  MarshalJSON (NewCustomFieldValue (VFloat64 f_0_1234567))
    = (Some (JObject [("number", JString "0.123457")]), None)
  /\ UnmarshalJSON (NewCustomFieldValue VNil) (JObject [("number", JString "0.123457")])
    = (NewCustomFieldValue (VFloat64 f_0_123457), None)
  /\ NewCustomFieldValue (VFloat64 f_0_123457) <> NewCustomFieldValue (VFloat64 f_0_1234567).
Proof.
  split; [vm_compute; reflexivity|]. split; [vm_compute; reflexivity|]. discriminate.
Qed.

(** Claim C1, amended: a value that [survives] (a non-empty string of
    well-formed UTF-8, an [int], a boolean, a timestamp in UTC on a whole second
    with a year from 0000 to 9999, a float that six decimals render exactly
    enough to parse back to it) is encoded without error, and decoding the wire
    form into any holder leaves exactly that value in it, without error. *)
Theorem roundtrip_surviving (v : value) (h : CustomFieldValue) :
  survives v ->
  exists j, MarshalJSON (NewCustomFieldValue v) = (Some j, None)
            /\ UnmarshalJSON h j = (NewCustomFieldValue v, None).
Proof.
  intros Hv. unfold MarshalJSON, NewCustomFieldValue. cbn [val].
  destruct v as [|s|n|n|f|b|t|c|r e|ty]; cbn [survives] in Hv; try contradiction;
    cbn [marshal_value].
  - destruct Hv as [Hne Hvalid]. rewrite (eqb_empty_false s Hne).
    eexists. split; [reflexivity|]. exact (reread_text h s Hne Hvalid).
  - eexists. split; [reflexivity|]. exact (reread_int h n Hv).
  - destruct Hv as [_ Hparse].
    eexists. split; [reflexivity|]. exact (reread_float h f f Hparse).
  - destruct b; (eexists; split; [reflexivity|]);
      rewrite (UnmarshalJSON_fields h _ _ (unmarshal_marshal_cfval _)); reflexivity.
  - destruct Hv as (Hloc & Hns & Hy).
    eexists. split; [reflexivity|]. exact (reread_time h t Hloc Hns Hy).
Qed.

Lemma roundtrip_surviving_witness :
  exists j, MarshalJSON (NewCustomFieldValue (VFloat64 f_3_14)) = (Some j, None)
            /\ UnmarshalJSON (NewCustomFieldValue VNil) j
               = (NewCustomFieldValue (VFloat64 f_3_14), None).
Proof.
  apply (roundtrip_surviving (VFloat64 f_3_14) (NewCustomFieldValue VNil)).
  split; [discriminate | vm_compute; reflexivity].
Defined.

(** ** C2: which field decides *)

(** Claim C2, as stated, fails: with [text] and [number] both populated the
    decoder leaves the number in the holder, not the text. *)
Lemma first_match_counterexample :
  let b := JObject [("text", JString "a"); ("number", JString "1")] in
  let h := NewCustomFieldValue VNil in
  unmarshal_cfval b (mk_cfval "" "" "" "") = (mk_cfval "a" "1" "" "", None)
  /\ UnmarshalJSON h b = (NewCustomFieldValue (VInt 1), None)
  /\ first_populated h (mk_cfval "a" "1" "" "") = (NewCustomFieldValue (VString "a"), None)
  /\ UnmarshalJSON h b <> first_populated h (mk_cfval "a" "1" "" "").
Proof.
  cbv zeta. repeat split; try (vm_compute; reflexivity). vm_compute. discriminate.
Qed.

(** Claim C2, amended: the decoder looks at the fields in the order text,
    date, checked, number and each populated field overwrites the holder, so
    that, unless a date that does not parse stops it, the last populated field
    in that order decides the value (and the holder is untouched when none is
    populated). *)
Theorem last_match_wins (h : CustomFieldValue) (b : json) (c : cfval) :
  unmarshal_cfval b (mk_cfval "" "" "" "") = (c, None) ->
  Date c = "" \/ snd (Time.Parse timeFmt (Date c)) = None ->
  UnmarshalJSON h b = last_populated h c.
Proof.
  intros Hb Hdate. rewrite (UnmarshalJSON_fields h b c Hb). unfold last_populated.
  destruct (String.eqb_spec (Date c) "") as [Ed|Ed]; cbn [negb].
  - destruct (String.eqb (Number c) ""), (String.eqb (Checked c) ""), (String.eqb (Text c) "");
      reflexivity.
  - destruct Hdate as [Hd|Hd]; [contradiction|].
    destruct (Time.Parse timeFmt (Date c)) as [t e]. cbn [snd] in Hd. subst e.
    destruct (String.eqb (Number c) ""), (String.eqb (Checked c) ""); reflexivity.
Qed.

Lemma last_match_wins_witness :
  UnmarshalJSON (NewCustomFieldValue VNil)
    (JObject [("text", JString "a"); ("checked", JString "true"); ("number", JString "1")])
  = last_populated (NewCustomFieldValue VNil) (mk_cfval "a" "1" "" "true").
Proof.
  apply (last_match_wins (NewCustomFieldValue VNil)
           (JObject [("text", JString "a"); ("checked", JString "true"); ("number", JString "1")])
           (mk_cfval "a" "1" "" "true")).
  - vm_compute. reflexivity.
  - left. reflexivity.
Defined.

(** ** C3: the empty string *)

(** Claim C3, as stated, fails in its second half: the bare empty string is
    not an object, and decoding it returns the type error of the JSON
    decoder. *)
Lemma decode_bare_empty_counterexample :
  MarshalJSON (NewCustomFieldValue (VString "")) = (Some (JString ""), None)
  /\ UnmarshalJSON (NewCustomFieldValue VNil) (JString "")
     = (NewCustomFieldValue VNil, Some (ErrJSONType "string"))
  /\ snd (UnmarshalJSON (NewCustomFieldValue VNil) (JString "")) <> None.
Proof. repeat split; try reflexivity. discriminate. Qed.

(** Claim C3, amended: the empty string is encoded as the bare empty string,
    not as an object with a [text] member; decoding the bare empty string
    leaves the holder as it was (unset, if it was unset) and returns the type
    error of the JSON decoder; decoding a wire value none of whose four fields
    is populated leaves the holder as it was, without error. *)
Theorem empty_string_wire (h : CustomFieldValue) :
  MarshalJSON (NewCustomFieldValue (VString "")) = (Some (JString ""), None)
  /\ JString "" <> JObject [("text", JString "")]
  /\ UnmarshalJSON h (JString "") = (h, Some (ErrJSONType "string"))
  /\ (forall b c,
        unmarshal_cfval b (mk_cfval "" "" "" "") = (c, None) ->
        Text c = "" -> Date c = "" -> Checked c = "" -> Number c = "" ->
        UnmarshalJSON h b = (h, None)).
Proof.
  split; [reflexivity|]. split; [discriminate|]. split; [reflexivity|].
  intros b c Hb Ht Hd Hc Hn.
  rewrite (UnmarshalJSON_fields h b c Hb), Ht, Hd, Hc, Hn. reflexivity.
Qed.

Lemma empty_string_wire_witness :
  UnmarshalJSON (NewCustomFieldValue VNil) (JObject [("id", JString "5a")])
  = (NewCustomFieldValue VNil, None).
Proof.
  apply (proj2 (proj2 (proj2 (empty_string_wire (NewCustomFieldValue VNil))))
           (JObject [("id", JString "5a")]) (mk_cfval "" "" "" ""));
    reflexivity.
Defined.

(** ** C4: the number field *)

(** Claim C4: when the [number] field is populated (and a date, if there is
    one, parses), the value is that of the first of [Atoi], [ParseFloat] at 64
    bits, [ParseFloat] at 32 bits and [ParseInt] at 64 bits that succeeds, an
    [int], a [float64], a [float64] and an [int64] in turn; when all four fail
    the error names the string. *)
Theorem number_attempts (h : CustomFieldValue) (b : json) (c : cfval) :
  unmarshal_cfval b (mk_cfval "" "" "" "") = (c, None) ->
  Number c <> "" ->
  Date c = "" \/ snd (Time.Parse timeFmt (Date c)) = None ->
  let s := Number c in
  let r := UnmarshalJSON h b in
  (forall n, Strconv.Atoi s = (n, None) -> r = (mkCustomFieldValue (VInt n), None))
  /\ (snd (Strconv.Atoi s) <> None ->
      forall f, Strconv.ParseFloat s 64 = (f, None) -> r = (mkCustomFieldValue (VFloat64 f), None))
  /\ (snd (Strconv.Atoi s) <> None -> snd (Strconv.ParseFloat s 64) <> None ->
      forall f, Strconv.ParseFloat s 32 = (f, None) -> r = (mkCustomFieldValue (VFloat64 f), None))
  /\ (snd (Strconv.Atoi s) <> None -> snd (Strconv.ParseFloat s 64) <> None ->
      snd (Strconv.ParseFloat s 32) <> None ->
      forall i, Strconv.ParseInt s 64 = (i, None) -> r = (mkCustomFieldValue (VInt64 i), None))
  /\ (snd (Strconv.Atoi s) <> None -> snd (Strconv.ParseFloat s 64) <> None ->
      snd (Strconv.ParseFloat s 32) <> None -> snd (Strconv.ParseInt s 64) <> None ->
      snd r = Some (ErrMsg ("cannot convert " ++ s ++ " to number"))).
Proof.
  intros Hb Hn Hdate s r.
  assert (Hr : r = let '(x, err) := unmarshal_number s in (mkCustomFieldValue x, err)).
  { subst r s. rewrite (UnmarshalJSON_fields h b c Hb), (eqb_empty_false _ Hn). cbn [negb].
    destruct Hdate as [Hd|Hd].
    - rewrite Hd. reflexivity.
    - destruct (String.eqb (Date c) ""); cbn [negb]; [reflexivity|].
      destruct (Time.Parse timeFmt (Date c)) as [t e]. cbn [snd] in Hd. subst e. reflexivity. }
  rewrite Hr. unfold unmarshal_number.
  destruct (Strconv.Atoi s) as [n [ea|]];
    destruct (Strconv.ParseFloat s 64) as [f [e64|]];
    destruct (Strconv.ParseFloat s 32) as [g [e32|]];
    destruct (Strconv.ParseInt s 64) as [i [ei|]]; cbn [snd];
    repeat split; intros; try congruence;
    repeat match goal with
           | H : (_, _) = (_, _) |- _ => injection H as ? ?; subst
           | H : None <> None |- _ => exfalso; apply H; reflexivity
           end; try reflexivity; try discriminate.
Qed.

Lemma number_attempts_witness :
  UnmarshalJSON (NewCustomFieldValue VNil) (JObject [("number", JString "42")])
    = (mkCustomFieldValue (VInt 42), None)
  /\ UnmarshalJSON (NewCustomFieldValue VNil) (JObject [("number", JString "3.14")])
    = (mkCustomFieldValue (VFloat64 f_3_14), None)
  /\ snd (UnmarshalJSON (NewCustomFieldValue VNil) (JObject [("number", JString "abc")]))
    = Some (ErrMsg "cannot convert abc to number").
Proof.
  split; [|split].
  - apply (proj1 (number_attempts (NewCustomFieldValue VNil)
                    (JObject [("number", JString "42")]) (mk_cfval "" "42" "" "")
                    eq_refl ltac:(discriminate) (or_introl eq_refl))).
    vm_compute. reflexivity.
  - apply (proj1 (proj2 (number_attempts (NewCustomFieldValue VNil)
                    (JObject [("number", JString "3.14")]) (mk_cfval "" "3.14" "" "")
                    eq_refl ltac:(discriminate) (or_introl eq_refl)))).
    + vm_compute. discriminate.
    + vm_compute. reflexivity.
  - apply (proj2 (proj2 (proj2 (proj2 (number_attempts (NewCustomFieldValue VNil)
                    (JObject [("number", JString "abc")]) (mk_cfval "" "abc" "" "")
                    eq_refl ltac:(discriminate) (or_introl eq_refl))))));
      vm_compute; discriminate.
Defined.

(** ** C5: the date field *)

(** Claim C5, as stated, fails: a date that parses does not yield the
    timestamp when [checked] or [number] is populated as well; the decoder
    goes on to them and leaves the boolean, or the number, in the holder. *)
Lemma date_field_counterexample :
  let date := "2021-06-01T10:00:00Z" in
  let t := Time.mkTime 1622541600 0 Time.UTC in
  let h := NewCustomFieldValue VNil in
  let b1 := JObject [("date", JString date); ("checked", JString "true")] in
  let b2 := JObject [("date", JString date); ("number", JString "42")] in
  Time.Parse timeFmt date = (t, None)
  /\ unmarshal_cfval b1 (mk_cfval "" "" "" "") = (mk_cfval "" "" date "true", None)
  /\ UnmarshalJSON h b1 = (NewCustomFieldValue (VBool true), None)
  /\ UnmarshalJSON h b1 <> (NewCustomFieldValue (VTime t), None)
  /\ unmarshal_cfval b2 (mk_cfval "" "" "" "") = (mk_cfval "" "42" date "", None)
  /\ UnmarshalJSON h b2 = (NewCustomFieldValue (VInt 42), None)
  /\ UnmarshalJSON h b2 <> (NewCustomFieldValue (VTime t), None).
Proof.
  cbv zeta. repeat split; try (vm_compute; reflexivity); vm_compute; discriminate.
Qed.

(** Claim C5, amended: when the [date] field is populated it is parsed with
    the layout [timeFmt].  If it does not parse, the decoder returns that
    error at once, whatever [checked] and [number] hold (they are not looked
    at); if it parses, and [checked] and [number] are empty, the value is the
    timestamp parsed, in UTC; the date written in the layout for a timestamp
    [t] of UTC, on a whole second of a year of four digits, parses to [t];
    and if it parses but [checked] or [number] is populated, the decoder goes
    on to them and what it leaves in the holder is no timestamp. *)
Theorem date_field (h : CustomFieldValue) (b : json) (c : cfval) :
  unmarshal_cfval b (mk_cfval "" "" "" "") = (c, None) ->
  Date c <> "" ->
  (forall e, snd (Time.Parse timeFmt (Date c)) = Some e ->
     UnmarshalJSON h b = (mkCustomFieldValue (VTime Time.zero), Some e))
  /\ (snd (Time.Parse timeFmt (Date c)) = None -> Checked c = "" -> Number c = "" ->
      UnmarshalJSON h b = (mkCustomFieldValue (VTime (fst (Time.Parse timeFmt (Date c)))), None)
      /\ Time.loc (fst (Time.Parse timeFmt (Date c))) = Time.UTC)
  /\ (forall t, Time.loc t = Time.UTC -> Time.nsec t = 0 ->
      0 <= Time.f_year (Time.fields_of t) <= 9999 ->
      Date c = Time.Format t timeFmt -> Checked c = "" -> Number c = "" ->
      UnmarshalJSON h b = (mkCustomFieldValue (VTime t), None))
  /\ (snd (Time.Parse timeFmt (Date c)) = None -> Checked c <> "" \/ Number c <> "" ->
      forall t, val (fst (UnmarshalJSON h b)) <> VTime t).
Proof.
  intros Hb Hd. rewrite (UnmarshalJSON_fields h b c Hb), (eqb_empty_false _ Hd). cbn [negb].
  split; [|split; [|split]].
  - pose proof (Parse_result timeFmt (Date c)) as Hp.
    destruct (Time.Parse timeFmt (Date c)) as [t [e|]]; cbn [snd]; [|discriminate].
    intros e' He. injection He as <-. destruct Hp as [-> _]. reflexivity.
  - pose proof (Parse_result timeFmt (Date c)) as Hp.
    destruct (Time.Parse timeFmt (Date c)) as [t [e|]]; cbn [fst snd]; [discriminate|].
    intros _ Hc Hn. rewrite Hc, Hn. split; [reflexivity|exact Hp].
  - intros t Hloc Hns Hy Hfmt Hc Hn.
    rewrite Hfmt, (TimeFacts.Parse_Format t Hloc Hns ltac:(lia)), Hc, Hn. reflexivity.
  - destruct (Time.Parse timeFmt (Date c)) as [t0 [e|]]; cbn [fst snd]; [discriminate|].
    intros _ Hor t.
    destruct (String.eqb_spec (Number c) "") as [Hn|Hn]; cbn [negb].
    + destruct Hor as [Hc|Hn']; [|contradiction].
      rewrite (eqb_empty_false _ Hc). cbn [negb fst val]. discriminate.
    + pose proof (unmarshal_number_no_time (Number c) t) as Hk.
      destruct (unmarshal_number (Number c)) as [x err]. exact Hk.
Qed.

Lemma date_field_witness :
  UnmarshalJSON (NewCustomFieldValue VNil) (JObject [("date", JString "2021-06-01T10:00:00Z")])
    = (mkCustomFieldValue (VTime (Time.mkTime 1622541600 0 Time.UTC)), None)
  /\ UnmarshalJSON (NewCustomFieldValue VNil)
       (JObject [("date", JString "not-a-date"); ("checked", JString "true");
                 ("number", JString "42")])
    = (mkCustomFieldValue (VTime Time.zero), Some (ErrTimeParse "not-a-date" "")).
Proof.
  split.
  - apply (proj1 (proj2 (date_field (NewCustomFieldValue VNil)
                    (JObject [("date", JString "2021-06-01T10:00:00Z")])
                    (mk_cfval "" "" "2021-06-01T10:00:00Z" "") eq_refl ltac:(discriminate))));
      reflexivity.
  - apply (proj1 (date_field (NewCustomFieldValue VNil)
                    (JObject [("date", JString "not-a-date"); ("checked", JString "true");
                              ("number", JString "42")])
                    (mk_cfval "" "42" "not-a-date" "true") eq_refl ltac:(discriminate))).
    reflexivity.
Defined.

(** ** C6: encoding a timestamp *)

(** Claim C6 at a timestamp outside UTC: the instant 2021-06-01T10:00:00Z,
    held in a zone two hours east of UTC, is written with the clock of that
    zone and the letter Z, as 2021-06-01T12:00:00Z, while its rendering in UTC
    is 2021-06-01T10:00:00Z. *)
Theorem encode_time_outside_utc :
  MarshalJSON (NewCustomFieldValue (VTime noon_cest))
    = (Some (JObject [("date", JString "2021-06-01T12:00:00Z")]), None)
  /\ Time.Format (Time.toUTC noon_cest) timeFmt = "2021-06-01T10:00:00Z"
  /\ fst (UnmarshalJSON (NewCustomFieldValue VNil)
            (JObject [("date", JString "2021-06-01T12:00:00Z")]))
     = NewCustomFieldValue (VTime (Time.mkTime (1622541600 + 7200) 0 Time.UTC)).
Proof. repeat split; vm_compute; reflexivity. Qed.

(** ** C8: values without a wire form *)

(** Claim C8: a value that is no string, [int], [int64], [float64], boolean,
    timestamp, wire-shaped value or [driver.Valuer] is not encoded: the
    result is the error "unsupported type" and no output. *)
Theorem unsupported_type (v : value) :
  (forall s, v <> VString s) -> (forall n, v <> VInt n) -> (forall n, v <> VInt64 n) ->
  (forall f, v <> VFloat64 f) -> (forall b, v <> VBool b) -> (forall t, v <> VTime t) ->
  (forall c, v <> VCfval c) -> (forall r e, v <> VValuer r e) ->
  MarshalJSON (NewCustomFieldValue v) = (None, Some (ErrMsg "unsupported type")).
Proof.
  intros Hs Hi Hi64 Hf Hb Ht Hc Hr.
  destruct v as [|s|n|n|f|b|t|c|r e|ty]; try reflexivity; exfalso.
  - exact (Hs s eq_refl).
  - exact (Hi n eq_refl).
  - exact (Hi64 n eq_refl).
  - exact (Hf f eq_refl).
  - exact (Hb b eq_refl).
  - exact (Ht t eq_refl).
  - exact (Hc c eq_refl).
  - exact (Hr r e eq_refl).
Qed.

Lemma unsupported_type_witness :
  MarshalJSON (NewCustomFieldValue (VOther "struct { X int }"))
  = (None, Some (ErrMsg "unsupported type")).
Proof.
  apply (unsupported_type (VOther "struct { X int }")); intros; discriminate.
Defined.

(** ** C7 and C9: the guard of SetCustomFieldByItem *)

Section Guard.

Variable Arguments : Type.
Variable flattenArguments : list Arguments -> Arguments.
Variable transport : Request Arguments -> option error.

(** Claim C7, amended: an item whose model type is not empty and is not
    "card" is refused with the error "unsupported model type: " followed by
    the type, and the network is as before: no request was attempted. *)
Theorem unsupported_model_type (cfi : CustomFieldItem) (extraArgs : list Arguments)
    (net : Network Arguments) :
  IDModelType cfi <> "" -> IDModelType cfi <> "card" ->
  SetCustomFieldByItem Arguments flattenArguments transport cfi extraArgs net
  = (Some (ErrMsg ("unsupported model type: " ++ IDModelType cfi)), net).
Proof.
  intros H1 H2. unfold SetCustomFieldByItem.
  rewrite (eqb_empty_false _ H1). apply String.eqb_neq in H2. rewrite H2. reflexivity.
Qed.

(** Claim C9: an item whose model type is the empty string passes the guard:
    the PUT request for its card and custom field, carrying its value, is
    attempted and its outcome returned. *)
Theorem empty_model_type_accepted (cfi : CustomFieldItem) (extraArgs : list Arguments)
    (net : Network Arguments) :
  IDModelType cfi = "" ->
  let r := mkRequest "PUT"
             ("cards/" ++ IDModel cfi ++ "/customField/" ++ IDCustomField cfi ++ "/item")
             (flattenArguments extraArgs)
             (mkCustomFieldItem "" (Value cfi) "" "" "" "") in
  SetCustomFieldByItem Arguments flattenArguments transport cfi extraArgs net
  = (transport r, (net ++ [r])%list).
Proof.
  intros H r. unfold SetCustomFieldByItem. rewrite H. reflexivity.
Qed.

(** No request is attempted exactly when the model type is neither empty nor
    "card". *)
Lemma guard_rejects_iff (cfi : CustomFieldItem) (extraArgs : list Arguments)
    (net : Network Arguments) :
  snd (SetCustomFieldByItem Arguments flattenArguments transport cfi extraArgs net) = net
  <-> IDModelType cfi <> "" /\ IDModelType cfi <> "card".
Proof.
  unfold SetCustomFieldByItem.
  destruct (String.eqb_spec (IDModelType cfi) "") as [E1|E1];
    destruct (String.eqb_spec (IDModelType cfi) "card") as [E2|E2]; cbn [negb andb snd PutJSON];
    split; try tauto; intros H; exfalso;
    apply (f_equal (@List.length _)) in H; rewrite length_app in H; cbn in H; lia.
Qed.

End Guard.

(** Claim C7, as stated, fails: the item of the repository's own test has a
    model type other than "card", the empty one, and its request is
    attempted. *)
Lemma model_type_counterexample :
  IDModelType probando <> "card"
  /\ SetCustomFieldByItem unit (fun _ => tt) (fun _ => None) probando [] []
     = (None,
        [mkRequest "PUT"
           "cards/57f5183c691585658d408681/customField/57f5183c691585658d408681/item" tt
           (mkCustomFieldItem "" (NewCustomFieldValue (VString "probando")) "" "" "" "")]).
Proof. split; [discriminate | reflexivity]. Qed.

Lemma unsupported_model_type_witness :
  SetCustomFieldByItem unit (fun _ => tt) (fun _ => None)
    (mkCustomFieldItem "" (NewCustomFieldValue (VString "x")) "" "f" "b" "board") [] []
  = (Some (ErrMsg "unsupported model type: board"), []).
Proof.
  apply (unsupported_model_type unit (fun _ => tt) (fun _ => None)
           (mkCustomFieldItem "" (NewCustomFieldValue (VString "x")) "" "f" "b" "board") [] []);
    discriminate.
Defined.

Lemma empty_model_type_accepted_witness :
  SetCustomFieldByItem unit (fun _ => tt) (fun _ => None) probando [] []
  = (None,
     [mkRequest "PUT"
        "cards/57f5183c691585658d408681/customField/57f5183c691585658d408681/item" tt
        (mkCustomFieldItem "" (NewCustomFieldValue (VString "probando")) "" "" "" "")]).
Proof.
  apply (empty_model_type_accepted unit (fun _ => tt) (fun _ => None) probando [] []).
  reflexivity.
Defined.

(** ** C10: errors and the holder *)

(** Claim C10, as stated, fails in what the holder is left with: for a number
    of 310 digits every attempt fails, the last one for being out of range,
    and the holder is left with the largest [int64], not with a zero. *)
Lemma number_error_counterexample :
  UnmarshalJSON (NewCustomFieldValue (VString "kept?"))
    (JObject [("number", JString ten_to_309)])
  = (mkCustomFieldValue (VInt64 9223372036854775807),
     Some (ErrMsg ("cannot convert " ++ ten_to_309 ++ " to number")))
  /\ VInt64 9223372036854775807 <> VInt64 0
  /\ VInt64 9223372036854775807 <> VInt 0
  /\ VInt64 9223372036854775807 <> VFloat64 (S754_zero false)
  /\ VInt64 9223372036854775807 <> VTime Time.zero.
Proof. split; [vm_compute; reflexivity|]. repeat split; discriminate. Qed.

(** Claim C10, amended: when [UnmarshalJSON] returns the error of a date that
    does not parse, the holder has been overwritten with the zero timestamp;
    when it returns the error of a number that does not convert, the holder
    has been overwritten with the [int64] the last attempt returned: zero, or
    the largest or the smallest [int64] for digits out of range.  Either way
    what the holder held before, also what the [text] field had just put
    there, is gone.  (An error of the JSON decoder leaves the holder as it
    was; no other error is returned.) *)
Theorem decode_error_overwrites (h h' : CustomFieldValue) (b : json) (e : error) :
  UnmarshalJSON h b = (h', Some e) ->
  match e with
  | ErrJSONType _ => h' = h
  | ErrTimeParse _ _ => val h' = VTime Time.zero
  | ErrMsg msg =>
      exists i, val h' = VInt64 i /\ (i = 0 \/ i = 2 ^ 63 - 1 \/ i = - 2 ^ 63)
  | ErrNum _ _ _ => False
  end.
Proof.
  unfold UnmarshalJSON.
  destruct (unmarshal_cfval b (mk_cfval "" "" "" "")) as [c [ej|]] eqn:Eb.
  - intros H. injection H as <- <-.
    destruct (unmarshal_cfval_error _ _ _ _ Eb) as [k ->]. reflexivity.
  - clear Eb. pose proof (Parse_result timeFmt (Date c)) as Hp.
    destruct (negb (String.eqb (Date c) "")).
    + destruct (Time.Parse timeFmt (Date c)) as [t [et|]].
      * intros H. injection H as <- <-. destruct Hp as [-> [msg ->]]. reflexivity.
      * destruct (negb (String.eqb (Number c) "")); [|discriminate].
        destruct (unmarshal_number (Number c)) as [x [en|]] eqn:En; [|discriminate].
        intros H. injection H as <- <-.
        destruct (unmarshal_number_error _ _ _ En) as [-> Hx]. exact Hx.
    + destruct (negb (String.eqb (Number c) "")); [|discriminate].
      destruct (unmarshal_number (Number c)) as [x [en|]] eqn:En; [|discriminate].
      intros H. injection H as <- <-.
      destruct (unmarshal_number_error _ _ _ En) as [-> Hx]. exact Hx.
Qed.

Lemma decode_error_overwrites_witness :
  val (fst (UnmarshalJSON (NewCustomFieldValue (VString "kept?"))
              (JObject [("text", JString "a"); ("date", JString "not-a-date")])))
  = VTime Time.zero.
Proof.
  apply (decode_error_overwrites (NewCustomFieldValue (VString "kept?"))
           (fst (UnmarshalJSON (NewCustomFieldValue (VString "kept?"))
              (JObject [("text", JString "a"); ("date", JString "not-a-date")])))
           (JObject [("text", JString "a"); ("date", JString "not-a-date")])
           (ErrTimeParse "not-a-date" "")).
  reflexivity.
Defined.

(** * Further properties of the code *)

(** ** Encoding *)

(** Property X2: a value behind any number of sources that resolve is encoded
    as the value itself; when a source on the way fails, its error is the
    result and what lies behind it is not looked at. *)
Theorem sources_are_transparent (n : nat) (v r : value) (e : error) :
  MarshalJSON (NewCustomFieldValue (resolving n v)) = MarshalJSON (NewCustomFieldValue v)
  /\ MarshalJSON (NewCustomFieldValue (resolving n (VValuer r (Some e)))) = (None, Some e).
Proof.
  unfold MarshalJSON, NewCustomFieldValue. cbn [val].
  assert (H : forall w, marshal_value (resolving n w) = marshal_value w).
  { induction n as [|n IH]; intros w; [reflexivity|]. cbn [resolving marshal_value]. apply IH. }
  split; [apply H|]. rewrite H. reflexivity.
Qed.

Lemma coerce_nonempty (s : string) : s <> "" -> Utf8.coerce s <> "".
Proof.
  destruct s as [|a s1]; [intros H; contradiction H; reflexivity|]. intros _.
  cbn [Utf8.coerce]. unfold Utf8.replacement.
  repeat match goal with
         | |- context [if ?b then _ else _] => destruct b
         | |- context [match ?x with EmptyString => _ | String _ _ => _ end] => destruct x
         end; discriminate.
Qed.

Lemma coerce_eqb_empty (s : string) :
  String.eqb s "" = false -> String.eqb (Utf8.coerce s) "" = false.
Proof.
  intros H. apply String.eqb_neq. apply coerce_nonempty. apply String.eqb_neq. exact H.
Qed.

Lemma marshal_cfval_shaped (c : cfval) :
  members_of ["text"; "number"; "date"; "checked"]
    (map (fun kv => (fst kv, Marshal_string (snd kv)))
         (filter (fun kv => negb (String.eqb (snd kv) "")) (cfval_struct c))) = true.
Proof.
  destruct c as [t n d k]. unfold cfval_struct, Marshal_string.
  cbn [Text Number Date Checked filter map fst snd].
  destruct (String.eqb t "") eqn:Et, (String.eqb n "") eqn:En,
    (String.eqb d "") eqn:Ed, (String.eqb k "") eqn:Ek;
    cbn [negb filter map fst snd members_of String.eqb Ascii.eqb Bool.eqb andb];
    rewrite ?(coerce_eqb_empty t Et), ?(coerce_eqb_empty n En), ?(coerce_eqb_empty d Ed),
      ?(coerce_eqb_empty k Ek); reflexivity.
Qed.

(** Property X3: whatever [MarshalJSON] writes is the bare empty string or
    an object whose members are some of text, number, date, checked, in this
    order, each with a string that is not empty. *)
Theorem MarshalJSON_wire_shaped (v : CustomFieldValue) (j : json) :
  MarshalJSON v = (Some j, None) -> wire_shaped j = true.
Proof.
  unfold MarshalJSON. generalize (val v). clear v. intros v. revert j.
  assert (Hc : forall c j, marshal_cfval c = (Some j, None) -> wire_shaped j = true).
  { intros c j H. unfold marshal_cfval, Marshal_struct in H. injection H as <-.
    apply marshal_cfval_shaped. }
  induction v as [|s|n|n|f|b|t|c|r IH e|ty]; intros j H; cbn [marshal_value] in H;
    try discriminate; try exact (Hc _ _ H).
  - destruct (String.eqb s ""); [injection H as <-; reflexivity | exact (Hc _ _ H)].
  - destruct b; exact (Hc _ _ H).
  - destruct e; [discriminate | exact (IH _ H)].
Qed.

Lemma MarshalJSON_wire_shaped_witness :
  wire_shaped (JObject [("text", JString "a"); ("checked", JString "x")]) = true.
Proof.
  apply (MarshalJSON_wire_shaped (NewCustomFieldValue (VCfval (mk_cfval "a" "" "" "x")))).
  reflexivity.
Defined.

Lemma append_nonempty_r (a b : string) : b <> "" -> a ++ b <> "".
Proof. destruct a; [trivial | discriminate]. Qed.

Lemma Format_never_empty (t : Time.Time) : Time.Format t timeFmt <> "".
Proof.
  unfold Time.Format, timeFmt. cbn [map Time.format_chunk String.concat].
  apply append_nonempty_r. discriminate.
Qed.

(** Property X4: for a value that is not wire-shaped itself (nor resolves
    to one), what [MarshalJSON] writes is the bare empty string or an object
    with exactly one of the four fields, holding a string that is not
    empty. *)
Theorem MarshalJSON_one_field (v : CustomFieldValue) (j : json) :
  MarshalJSON v = (Some j, None) ->
  (forall c, resolved (val v) <> VCfval c) ->
  j = JString ""
  \/ exists k s, j = JObject [(k, JString s)] /\ s <> ""
                 /\ In k ["text"; "number"; "date"; "checked"].
Proof.
  unfold MarshalJSON. generalize (val v). clear v. intros v. revert j.
  assert (Ht : forall s j, s <> "" -> marshal_cfval (mk_cfval s "" "" "") = (Some j, None) ->
               exists k s, j = JObject [(k, JString s)] /\ s <> ""
                           /\ In k ["text"; "number"; "date"; "checked"]).
  { intros s j Hs H. unfold marshal_cfval, Marshal_struct, cfval_struct, Marshal_string in H.
    cbn [Text Number Date Checked filter map fst snd String.eqb negb] in H.
    rewrite (eqb_empty_false s Hs) in H. cbn [negb map fst snd] in H. injection H as <-.
    exists "text", (Utf8.coerce s). split; [reflexivity|].
    split; [apply coerce_nonempty; exact Hs | cbn; tauto]. }
  assert (Hn : forall s j, s <> "" -> marshal_cfval (mk_cfval "" s "" "") = (Some j, None) ->
               exists k s, j = JObject [(k, JString s)] /\ s <> ""
                           /\ In k ["text"; "number"; "date"; "checked"]).
  { intros s j Hs H. unfold marshal_cfval, Marshal_struct, cfval_struct, Marshal_string in H.
    cbn [Text Number Date Checked filter map fst snd String.eqb negb] in H.
    rewrite (eqb_empty_false s Hs) in H. cbn [negb map fst snd] in H. injection H as <-.
    exists "number", (Utf8.coerce s). split; [reflexivity|].
    split; [apply coerce_nonempty; exact Hs | cbn; tauto]. }
  assert (Hd : forall s j, s <> "" -> marshal_cfval (mk_cfval "" "" s "") = (Some j, None) ->
               exists k s, j = JObject [(k, JString s)] /\ s <> ""
                           /\ In k ["text"; "number"; "date"; "checked"]).
  { intros s j Hs H. unfold marshal_cfval, Marshal_struct, cfval_struct, Marshal_string in H.
    cbn [Text Number Date Checked filter map fst snd String.eqb negb] in H.
    rewrite (eqb_empty_false s Hs) in H. cbn [negb map fst snd] in H. injection H as <-.
    exists "date", (Utf8.coerce s). split; [reflexivity|].
    split; [apply coerce_nonempty; exact Hs | cbn; tauto]. }
  induction v as [|s|n|n|f|b|t|c|r IH e|ty]; intros j H Hraw; cbn [marshal_value] in H;
    cbn [resolved] in Hraw; try discriminate.
  - destruct (String.eqb_spec s "") as [E|E]; [injection H as <-; left; reflexivity|].
    right. exact (Ht s j E H).
  - right. exact (Hn _ j (FormatInt_nonempty n) H).
  - right. exact (Hn _ j (FormatInt_nonempty n) H).
  - right. exact (Hn _ j (Sprintf_f_nonempty f) H).
  - right. destruct b; injection H as <-.
    + exists "checked", "true". split; [reflexivity|]. split; [discriminate | cbn; tauto].
    + exists "checked", "false". split; [reflexivity|]. split; [discriminate | cbn; tauto].
  - right. exact (Hd _ j (Format_never_empty t) H).
  - exfalso. exact (Hraw c eq_refl).
  - destruct e; [discriminate|]. exact (IH j H Hraw).
Qed.

Lemma MarshalJSON_one_field_witness :
  JObject [("number", JString "7")] = JString ""
  \/ exists k s, JObject [("number", JString "7")] = JObject [(k, JString s)] /\ s <> ""
                 /\ In k ["text"; "number"; "date"; "checked"].
Proof.
  apply (MarshalJSON_one_field (NewCustomFieldValue (VValuer (VInt 7) None))).
  - reflexivity.
  - intros c. discriminate.
Defined.

(** ** Wire-shaped values *)

(** Property X5: a wire-shaped value is written as it is, empty fields
    left out, and reading the object written gives its four fields back (for
    fields of well-formed UTF-8). *)
Theorem cfval_passes_through (c : cfval) :
  Utf8.valid (Text c) = true -> Utf8.valid (Number c) = true ->
  Utf8.valid (Date c) = true -> Utf8.valid (Checked c) = true ->
  exists j, MarshalJSON (NewCustomFieldValue (VCfval c)) = (Some j, None)
            /\ unmarshal_cfval j (mk_cfval "" "" "" "") = (c, None).
Proof.
  intros Ht Hn Hd Hk. eexists. split; [reflexivity|].
  rewrite unmarshal_marshal_cfval. unfold coerced.
  rewrite (valid_coerce _ Ht), (valid_coerce _ Hn), (valid_coerce _ Hd), (valid_coerce _ Hk).
  destruct c; reflexivity.
Qed.

Lemma cfval_passes_through_witness :
  exists j, MarshalJSON (NewCustomFieldValue (VCfval (mk_cfval "" "12" "" ""))) = (Some j, None)
            /\ unmarshal_cfval j (mk_cfval "" "" "" "") = (mk_cfval "" "12" "" "", None).
Proof.
  apply (cfval_passes_through (mk_cfval "" "12" "" "")); reflexivity.
Defined.

(** ** Numbers and timestamps there and back *)

(** Property X6: an [int64] is written like the [int] of the same number and
    comes back as that [int]: the type is not kept. *)
Theorem int64_comes_back_as_int (n : Z) (h : CustomFieldValue) :
  - 2 ^ 63 <= n < 2 ^ 63 ->
  MarshalJSON (NewCustomFieldValue (VInt64 n)) = MarshalJSON (NewCustomFieldValue (VInt n))
  /\ exists j, MarshalJSON (NewCustomFieldValue (VInt64 n)) = (Some j, None)
               /\ UnmarshalJSON h j = (NewCustomFieldValue (VInt n), None).
Proof.
  intros Hn. split; [reflexivity|].
  eexists. split; [reflexivity|]. exact (reread_int h n Hn).
Qed.

Lemma int64_comes_back_as_int_witness :
  exists j, MarshalJSON (NewCustomFieldValue (VInt64 (-42))) = (Some j, None)
            /\ UnmarshalJSON (NewCustomFieldValue (VInt64 (-42))) j
               = (NewCustomFieldValue (VInt (-42)), None).
Proof.
  apply (proj2 (int64_comes_back_as_int (-42) (NewCustomFieldValue (VInt64 (-42)))
                  ltac:(lia))).
Defined.


(** Property X7: a float is never read back as an integer: if its
    rendering with six decimals parses, at 64 bits, to [g], then decoding what
    encoding wrote leaves the float [g] in the holder (3 comes back as the
    float 3, not as the [int] 3). *)
Theorem float_stays_float (f g : Strconv.float64) (h : CustomFieldValue) :
  Strconv.ParseFloat (Fmt.Sprintf_f f) 64 = (g, None) ->
  exists j, MarshalJSON (NewCustomFieldValue (VFloat64 f)) = (Some j, None)
            /\ UnmarshalJSON h j = (NewCustomFieldValue (VFloat64 g), None).
Proof.
  intros H. eexists. split; [reflexivity|]. exact (reread_float h f g H).
Qed.

Lemma float_stays_float_witness :
  exists j, MarshalJSON (NewCustomFieldValue (VFloat64 f_0_1234567)) = (Some j, None)
            /\ UnmarshalJSON (NewCustomFieldValue VNil) j
               = (NewCustomFieldValue (VFloat64 f_0_123457), None).
Proof.
  apply (float_stays_float f_0_1234567 f_0_123457 (NewCustomFieldValue VNil)).
  vm_compute. reflexivity.
Defined.

Lemma fields_of_wall_clock (t : Time.Time) :
  let f := Time.fields_of t in
  Time.fields_of (wall_clock t)
  = Time.mkFields (Time.f_year f) (Time.f_month f) (Time.f_day f) (Time.f_hour f)
                  (Time.f_min f) (Time.f_sec f) 0.
Proof.
  unfold wall_clock, Time.fields_of.
  cbn [Time.unixSec Time.loc Time.nsec Time.offset]. rewrite Z.add_0_r.
  destruct (Time.civil_from_days ((Time.unixSec t + Time.offset (Time.loc t)) / 86400))
    as [[y m] d]. reflexivity.
Qed.

Lemma Format_wall_clock (t : Time.Time) :
  Time.Format (wall_clock t) timeFmt = Time.Format t timeFmt.
Proof.
  unfold Time.Format. rewrite fields_of_wall_clock. reflexivity.
Qed.

(** Property X8: for a timestamp in any location and with any nanoseconds,
    whose year there has four digits, decoding what encoding wrote gives the
    time in UTC that reads what its clock read in its own location, on the
    whole second: the instant moves by the offset of the location and the
    nanoseconds are dropped. *)
Theorem time_comes_back_as_wall_clock (t : Time.Time) (h : CustomFieldValue) :
  0 <= Time.f_year (Time.fields_of t) <= 9999 ->
  exists j, MarshalJSON (NewCustomFieldValue (VTime t)) = (Some j, None)
            /\ UnmarshalJSON h j = (NewCustomFieldValue (VTime (wall_clock t)), None).
Proof.
  intros Hy. eexists. split; [reflexivity|].
  rewrite <- Format_wall_clock.
  apply (reread_time h (wall_clock t)); try reflexivity.
  rewrite fields_of_wall_clock. exact Hy.
Qed.

Lemma time_comes_back_as_wall_clock_witness :
  exists j, MarshalJSON (NewCustomFieldValue (VTime noon_cest)) = (Some j, None)
            /\ UnmarshalJSON (NewCustomFieldValue VNil) j
               = (NewCustomFieldValue (VTime (wall_clock noon_cest)), None).
Proof.
  apply (time_comes_back_as_wall_clock noon_cest (NewCustomFieldValue VNil)).
  vm_compute. split; discriminate.
Defined.

(** ** The attempts on a number *)

Lemma Atoi_fast_all_digits (s : string) :
  forall n, all_digits s = true -> exists m, Strconv.Atoi_fast s n = Some m.
Proof.
  induction s as [|c s IH]; intros n H; cbn [Strconv.Atoi_fast].
  - eexists. reflexivity.
  - cbn [all_digits] in H. apply andb_true_iff in H. destruct H as [Hc Hs].
    rewrite Hc. apply IH. exact Hs.
Qed.

Lemma ParseInt_size (s : string) : Strconv.ParseInt s 0 = Strconv.ParseInt s 64.
Proof.
  unfold Strconv.ParseInt, Strconv.ParseUint. destruct s as [|c0 s1]; [reflexivity|].
  reflexivity.
Qed.

Lemma ParseInt_ok_digits (s : string) (i : Z) :
  Strconv.ParseInt s 64 = (i, None) ->
  unsigned_part s <> "" /\ all_digits (unsigned_part s) = true.
Proof.
  unfold Strconv.ParseInt. destruct s as [|c0 s1]; [discriminate|].
  cbn [unsigned_part].
  set (s' := if ((c0 =? "+")%char || (c0 =? "-")%char)%bool then s1 else String c0 s1).
  unfold Strconv.ParseUint. destruct s' as [|c' t'] eqn:Es'; [discriminate|].
  change (if 64 =? 0 then Strconv.intSize else 64) with 64.
  destruct (Strconv.ParseUint_loop (String c' t') (2 ^ 64 - 1) (String c' t') 0) as [x e] eqn:E.
  apply StrconvFacts.ParseUint_loop_result in E.
  destruct e as [[fn num [|]| | |]|]; try contradiction; try discriminate.
  - subst x. change (2 ^ (64 - 1)) with 9223372036854775808.
    change (2 ^ 64 - 1) with 18446744073709551615.
    destruct (c0 =? "-")%char; cbn; discriminate.
  - intros _. split; [discriminate | exact E].
Qed.

Lemma Atoi_fails_ParseInt_fails (s : string) :
  snd (Strconv.Atoi s) <> None -> snd (Strconv.ParseInt s 64) <> None.
Proof.
  intros Ha Hp. apply Ha. clear Ha.
  destruct (Strconv.ParseInt s 64) as [i e] eqn:E. cbn [snd] in Hp. subst e.
  unfold Strconv.Atoi. destruct ((0 <? len s) && (len s <? 19)).
  - destruct (ParseInt_ok_digits s i E) as [Hne Hd].
    destruct s as [|c0 s1]; [discriminate|]. cbn [unsigned_part] in Hne, Hd.
    replace ((c0 =? "-")%char || (c0 =? "+")%char) with ((c0 =? "+")%char || (c0 =? "-")%char)
      by apply orb_comm.
    destruct ((c0 =? "+")%char || (c0 =? "-")%char); cbn [andb].
    + replace (len s1 <? 1) with false.
      * destruct (Atoi_fast_all_digits s1 0 Hd) as [m ->]. reflexivity.
      * symmetry. destruct s1; [contradiction Hne; reflexivity|].
        unfold len. cbn [String.length]. zbool.
    + destruct (Atoi_fast_all_digits (String c0 s1) 0 Hd) as [m ->]. reflexivity.
  - rewrite ParseInt_size, E. reflexivity.
Qed.

Lemma Atoi_fast_bound (s : string) :
  forall a m, Strconv.Atoi_fast s a = Some m -> 0 <= a ->
  a * 10 ^ len s <= m < (a + 1) * 10 ^ len s.
Proof.
  induction s as [|c s IH]; intros a m H Ha; cbn [Strconv.Atoi_fast] in H.
  - injection H as <-. change (len "") with 0. lia.
  - destruct (isDigit c) eqn:Hc; [|discriminate].
    unfold isDigit in Hc. apply andb_true_iff in Hc. destruct Hc as [H1 H2].
    apply Z.leb_le in H1, H2.
    apply IH in H; [|lia].
    assert (Hl : len (String c s) = len s + 1)
      by (unfold len; cbn [String.length]; lia).
    rewrite Hl, Z.pow_add_r by (unfold len; lia).
    assert (0 < 10 ^ len s) by (apply Z.pow_pos_nonneg; unfold len; lia).
    nia.
Qed.

Lemma ParseUint_loop_nonneg (s0 : string) (maxVal : Z) (s : string) :
  forall n x e, Strconv.ParseUint_loop s0 maxVal s n = (x, e) ->
  0 <= n -> 0 <= maxVal -> 0 <= x.
Proof.
  induction s as [|c s IH]; intros n x e H Hn Hm; cbn [Strconv.ParseUint_loop] in H.
  - injection H as <- _. exact Hn.
  - destruct (negb (isDigit c)); [injection H as <- _; lia|].
    destruct (n >=? _); [injection H as <- _; exact Hm|].
    destruct (_ || _); [injection H as <- _; exact Hm|].
    apply (IH _ _ _ H); [|exact Hm]. apply Z.mod_pos_bound. lia.
Qed.

Lemma Atoi_range (s : string) (n : Z) :
  Strconv.Atoi s = (n, None) -> - 2 ^ 63 <= n < 2 ^ 63.
Proof.
  unfold Strconv.Atoi. destruct ((0 <? len s) && (len s <? 19)) eqn:Hl.
  - apply andb_true_iff in Hl. destruct Hl as [_ Hl]. apply Z.ltb_lt in Hl.
    destruct s as [|c0 s1]; [discriminate|].
    destruct (_ && (len _ <? 1)); [discriminate|].
    set (s' := if ((c0 =? "-")%char || (c0 =? "+")%char)%bool then s1 else String c0 s1).
    assert (Hs' : len s' <= 18).
    { subst s'. unfold len in *. cbn [String.length] in Hl.
      destruct (_ || _); cbn [String.length]; lia. }
    destruct (Strconv.Atoi_fast s' 0) as [m|] eqn:E; [|discriminate].
    apply Atoi_fast_bound in E; [|lia].
    assert (Hp : 10 ^ len s' <= 10 ^ 18) by (apply Z.pow_le_mono_r; [lia | exact Hs']).
    change (10 ^ 18) with 1000000000000000000 in *.
    change (2 ^ 63) with 9223372036854775808.
    intros Hr. destruct (c0 =? "-")%char; injection Hr as <-; lia.
  - clear Hl. rewrite ParseInt_size. unfold Strconv.ParseInt.
    destruct s as [|c0 s1]; [discriminate|].
    set (s' := if ((c0 =? "+")%char || (c0 =? "-")%char)%bool then s1 else String c0 s1).
    unfold Strconv.ParseUint. destruct s' as [|c' t']; [discriminate|].
    change (if 64 =? 0 then Strconv.intSize else 64) with 64.
    change (2 ^ (64 - 1)) with 9223372036854775808.
    change (2 ^ 63) with 9223372036854775808.
    destruct (Strconv.ParseUint_loop (String c' t') (2 ^ 64 - 1) (String c' t') 0) as [x e] eqn:E.
    apply ParseUint_loop_nonneg in E; [|lia|change (2 ^ 64 - 1) with 18446744073709551615; lia].
    destruct e as [[fn num [|]| | |]|]; try discriminate;
      destruct (c0 =? "-")%char; cbn [negb andb];
      repeat match goal with
             | |- context [if ?b then _ else _] => destruct b eqn:?
             end;
      intros H; try discriminate; injection H as <-;
      rewrite ?Z.geb_leb, ?Z.gtb_ltb in *;
      repeat match goal with
             | H : (_ <=? _) = false |- _ => apply Z.leb_gt in H
             | H : (_ <? _) = false |- _ => apply Z.ltb_ge in H
             end; lia.
Qed.

Lemma unmarshal_number_ok (s : string) (x : value) :
  unmarshal_number s = (x, None) ->
  (exists n, x = VInt n /\ - 2 ^ 63 <= n < 2 ^ 63) \/ (exists f, x = VFloat64 f).
Proof.
  unfold unmarshal_number.
  destruct (Strconv.Atoi s) as [n [ea|]] eqn:Ea.
  - pose proof (Atoi_fails_ParseInt_fails s) as Hdead. rewrite Ea in Hdead. cbn [snd] in Hdead.
    destruct (Strconv.ParseFloat s 64) as [f [e64|]];
      [|intros H; injection H as <-; right; eexists; reflexivity].
    destruct (Strconv.ParseFloat s 32) as [g [e32|]];
      [|intros H; injection H as <-; right; eexists; reflexivity].
    destruct (Strconv.ParseInt s 64) as [i [ei|]]; [discriminate|].
    exfalso. apply Hdead; [discriminate | reflexivity].
  - intros H. injection H as <-. left. exists n. split; [reflexivity|].
    exact (Atoi_range s n Ea).
Qed.

Lemma number_decoded (h h' : CustomFieldValue) (b : json) (c : cfval) :
  unmarshal_cfval b (mk_cfval "" "" "" "") = (c, None) ->
  Number c <> "" ->
  UnmarshalJSON h b = (h', None) ->
  (exists n, val h' = VInt n /\ - 2 ^ 63 <= n < 2 ^ 63) \/ (exists f, val h' = VFloat64 f).
Proof.
  intros Hb Hn. rewrite (UnmarshalJSON_fields h b c Hb), (eqb_empty_false _ Hn). cbn [negb].
  destruct (negb (String.eqb (Date c) "")).
  - destruct (Time.Parse timeFmt (Date c)) as [t [e|]]; [discriminate|].
    destruct (unmarshal_number (Number c)) as [x [e|]] eqn:E; [discriminate|].
    intros H. injection H as <-. exact (unmarshal_number_ok _ _ E).
  - destruct (unmarshal_number (Number c)) as [x [e|]] eqn:E; [discriminate|].
    intros H. injection H as <-. exact (unmarshal_number_ok _ _ E).
Qed.

(** Property X10: the fourth attempt on a number never succeeds: whenever
    [Atoi] fails on the string, [ParseInt] at 64 bits fails on it as well.  So
    a number decoded without error is an [int], within the range of 64
    bits, or a [float64], never an [int64]. *)
Theorem number_is_int_or_float (h h' : CustomFieldValue) (b : json) (c : cfval) :
  unmarshal_cfval b (mk_cfval "" "" "" "") = (c, None) ->
  Number c <> "" ->
  (snd (Strconv.Atoi (Number c)) <> None -> snd (Strconv.ParseInt (Number c) 64) <> None)
  /\ (UnmarshalJSON h b = (h', None) ->
      (exists n, val h' = VInt n /\ - 2 ^ 63 <= n < 2 ^ 63) \/ (exists f, val h' = VFloat64 f)).
Proof.
  intros Hb Hn. split.
  - apply Atoi_fails_ParseInt_fails.
  - exact (number_decoded h h' b c Hb Hn).
Qed.

Lemma number_is_int_or_float_witness :
  (exists n, val (mkCustomFieldValue (VFloat64 f_3_14)) = VInt n /\ - 2 ^ 63 <= n < 2 ^ 63)
  \/ (exists f, val (mkCustomFieldValue (VFloat64 f_3_14)) = VFloat64 f).
Proof.
  apply (proj2 (number_is_int_or_float (NewCustomFieldValue VNil)
                  (mkCustomFieldValue (VFloat64 f_3_14))
                  (JObject [("number", JString "3.14")]) (mk_cfval "" "3.14" "" "")
                  eq_refl ltac:(discriminate))).
  vm_compute. reflexivity.
Defined.

(** ** What decoding leaves in the holder *)

(** Property X11: when decoding succeeds with some field populated, the
    holder has a string that is not empty, an [int] within 64 bits, a
    [float64], a boolean or a timestamp in UTC, and [MarshalJSON] on the
    holder succeeds: what was decoded can always be encoded again. *)
Theorem decoded_value_kind (h h' : CustomFieldValue) (b : json) (c : cfval) :
  unmarshal_cfval b (mk_cfval "" "" "" "") = (c, None) ->
  Text c <> "" \/ Date c <> "" \/ Checked c <> "" \/ Number c <> "" ->
  UnmarshalJSON h b = (h', None) ->
  decoded_kind (val h')
  /\ exists j, MarshalJSON h' = (Some j, None).
Proof.
  intros Hb Hpop Hdec.
  assert (Hk : decoded_kind (val h')).
  { destruct (String.eqb_spec (Number c) "") as [En|En].
    - rewrite (UnmarshalJSON_fields h b c Hb), En in Hdec. cbn [String.eqb negb] in Hdec.
      pose proof (Parse_result timeFmt (Date c)) as Hp.
      destruct (String.eqb_spec (Date c) "") as [Ed|Ed]; cbn [negb] in Hdec.
      + destruct (String.eqb_spec (Checked c) "") as [Ek|Ek]; cbn [negb] in Hdec.
        * destruct (String.eqb_spec (Text c) "") as [Et|Et]; cbn [negb] in Hdec.
          -- exfalso. tauto.
          -- injection Hdec as <-. exact Et.
        * injection Hdec as <-. exact I.
      + destruct (Time.Parse timeFmt (Date c)) as [t [e|]]; [discriminate|].
        destruct (String.eqb (Checked c) ""); cbn [negb] in Hdec; injection Hdec as <-;
          [exact Hp | exact I].
    - destruct (number_decoded h h' b c Hb En Hdec) as [(n & -> & Hn)|(f & ->)];
        [exact Hn | exact I]. }
  split; [exact Hk|].
  unfold MarshalJSON. destruct (val h') as [|s|n|n|f|b0|t|c0|r e|ty];
    cbn [decoded_kind] in Hk; try contradiction; cbn [marshal_value].
  - rewrite (eqb_empty_false _ Hk). eexists. reflexivity.
  - eexists. reflexivity.
  - eexists. reflexivity.
  - destruct b0; eexists; reflexivity.
  - eexists. reflexivity.
Qed.

Lemma decoded_value_kind_witness :
  decoded_kind (VTime (Time.mkTime 1622541600 0 Time.UTC))
  /\ exists j, MarshalJSON (mkCustomFieldValue (VTime (Time.mkTime 1622541600 0 Time.UTC)))
               = (Some j, None).
Proof.
  apply (decoded_value_kind (NewCustomFieldValue VNil)
           (mkCustomFieldValue (VTime (Time.mkTime 1622541600 0 Time.UTC)))
           (JObject [("text", JString "a"); ("date", JString "2021-06-01T10:00:00Z")])
           (mk_cfval "a" "" "2021-06-01T10:00:00Z" "")).
  - reflexivity.
  - left. discriminate.
  - vm_compute. reflexivity.
Defined.

(** Property X12: when the wire value has some field populated, the result
    of decoding, holder and error, does not depend on what the holder held
    before. *)
Theorem decode_overwrites_holder (h1 h2 : CustomFieldValue) (b : json) (c : cfval) :
  unmarshal_cfval b (mk_cfval "" "" "" "") = (c, None) ->
  Text c <> "" \/ Date c <> "" \/ Checked c <> "" \/ Number c <> "" ->
  UnmarshalJSON h1 b = UnmarshalJSON h2 b.
Proof.
  intros Hb Hpop.
  rewrite (UnmarshalJSON_fields h1 b c Hb), (UnmarshalJSON_fields h2 b c Hb).
  destruct (String.eqb_spec (Text c) "") as [Et|Et],
    (String.eqb_spec (Date c) "") as [Ed|Ed],
    (String.eqb_spec (Checked c) "") as [Ek|Ek],
    (String.eqb_spec (Number c) "") as [En|En]; cbn [negb]; try reflexivity.
  exfalso. tauto.
Qed.

Lemma decode_overwrites_holder_witness :
  UnmarshalJSON (NewCustomFieldValue VNil) (JObject [("checked", JString "yes")])
  = UnmarshalJSON (NewCustomFieldValue (VString "old")) (JObject [("checked", JString "yes")]).
Proof.
  apply (decode_overwrites_holder (NewCustomFieldValue VNil) (NewCustomFieldValue (VString "old"))
           (JObject [("checked", JString "yes")]) (mk_cfval "" "" "" "yes")).
  - reflexivity.
  - right. right. left. discriminate.
Defined.

(** Property X13: a populated [checked] field, with no number after it and
    no date that fails, never makes decoding fail: the value is the boolean
    true exactly when the field is the four bytes "true", and false for every
    other string, "True" and "1" included. *)
Theorem checked_is_true_or_not (h : CustomFieldValue) (b : json) (c : cfval) :
  unmarshal_cfval b (mk_cfval "" "" "" "") = (c, None) ->
  Checked c <> "" -> Number c = "" ->
  Date c = "" \/ snd (Time.Parse timeFmt (Date c)) = None ->
  UnmarshalJSON h b = (mkCustomFieldValue (VBool (String.eqb (Checked c) "true")), None)
  /\ (UnmarshalJSON h b = (mkCustomFieldValue (VBool true), None) <-> Checked c = "true").
Proof.
  intros Hb Hk Hn Hdate.
  assert (H : UnmarshalJSON h b
              = (mkCustomFieldValue (VBool (String.eqb (Checked c) "true")), None)).
  { rewrite (UnmarshalJSON_fields h b c Hb), Hn, (eqb_empty_false _ Hk). cbn [String.eqb negb].
    destruct Hdate as [Hd|Hd].
    - rewrite Hd. reflexivity.
    - destruct (String.eqb (Date c) ""); cbn [negb]; [reflexivity|].
      destruct (Time.Parse timeFmt (Date c)) as [t e]. cbn [snd] in Hd. subst e. reflexivity. }
  split; [exact H|]. rewrite H.
  destruct (String.eqb_spec (Checked c) "true") as [E|E]; split; intros H'; try tauto.
  discriminate.
Qed.

Lemma checked_is_true_or_not_witness :
  UnmarshalJSON (NewCustomFieldValue VNil) (JObject [("checked", JString "True")])
  = (mkCustomFieldValue (VBool false), None).
Proof.
  apply (proj1 (checked_is_true_or_not (NewCustomFieldValue VNil)
                  (JObject [("checked", JString "True")]) (mk_cfval "" "" "" "True")
                  eq_refl ltac:(discriminate) eq_refl (or_introl eq_refl))).
Defined.

(** ** Setting a custom field *)

Section Requests.

Variable Arguments : Type.
Variable flattenArguments : list Arguments -> Arguments.
Variable transport : Request Arguments -> option error.

(** Property X14: for an item that passes the guard (model type empty or
    "card"), [SetCustomFieldByItem] does what [SetCustomField] does with the
    item's model, custom field and value: the same request, the same outcome.
    The other fields of the item play no part. *)
Theorem SetCustomField_as_item (cfi : CustomFieldItem) (extraArgs : list Arguments)
    (net : Network Arguments) :
  IDModelType cfi = "" \/ IDModelType cfi = "card" ->
  SetCustomFieldByItem Arguments flattenArguments transport cfi extraArgs net
  = SetCustomField Arguments flattenArguments transport (IDModel cfi) (IDCustomField cfi)
      (Get (Value cfi)) extraArgs net.
Proof.
  intros H. unfold SetCustomFieldByItem, SetCustomField, NewCustomFieldValue, Get.
  replace (negb (String.eqb (IDModelType cfi) "") && negb (String.eqb (IDModelType cfi) "card"))
    with false by (destruct H as [-> | ->]; reflexivity).
  destruct (Value cfi). reflexivity.
Qed.

Lemma length_append (a b : string) :
  String.length (a ++ b) = (String.length a + String.length b)%nat.
Proof. induction a as [|x a IH]; [reflexivity|]. cbn [append String.length]. rewrite IH. reflexivity. Qed.

Lemma append_cancel_r (t : string) : forall a b, a ++ t = b ++ t -> a = b.
Proof.
  induction a as [|x a IH]; intros b H.
  - destruct b as [|y b]; [reflexivity|]. exfalso.
    apply (f_equal String.length) in H. cbn [append String.length] in H.
    rewrite length_append in H. lia.
  - destruct b as [|y b].
    + exfalso. apply (f_equal String.length) in H. cbn [append String.length] in H.
      rewrite length_append in H. lia.
    + cbn [append] in H. injection H as -> H. f_equal. exact (IH _ H).
Qed.

Lemma split_at_slash (a : string) :
  forall a' r r', no_slash a = true -> no_slash a' = true ->
  a ++ String "/" r = a' ++ String "/" r' -> a = a' /\ r = r'.
Proof.
  induction a as [|x a IH]; intros a' r r' Ha Ha' H.
  - destruct a' as [|y a']; cbn [append] in H.
    + injection H as ->. split; reflexivity.
    + injection H as <- _. cbn [no_slash] in Ha'. discriminate.
  - destruct a' as [|y a']; cbn [append] in H.
    + injection H as -> _. cbn [no_slash] in Ha. discriminate.
    + injection H as -> H. cbn [no_slash] in Ha, Ha'.
      apply andb_true_iff in Ha, Ha'. destruct Ha as [_ Ha], Ha' as [_ Ha'].
      destruct (IH _ _ _ Ha Ha' H) as [-> ->]. split; reflexivity.
Qed.

(** Property X15: when the card identifiers contain no slash, the path of
    the request of [SetCustomField] tells the card and the custom field: two
    calls with the same path were made for the same card and field. *)
Theorem request_path_tells_card_and_field (c1 f1 c2 f2 : string) (v1 v2 : value)
    (e1 e2 : list Arguments) :
  no_slash c1 = true -> no_slash c2 = true ->
  map (req_path Arguments) (snd (SetCustomField Arguments flattenArguments transport c1 f1 v1 e1 []))
  = map (req_path Arguments) (snd (SetCustomField Arguments flattenArguments transport c2 f2 v2 e2 [])) ->
  c1 = c2 /\ f1 = f2.
Proof.
  intros H1 H2 H. unfold SetCustomField, PutJSON in H.
  cbn [snd app map req_path] in H. injection H as H.
  destruct (split_at_slash _ _ _ _ H1 H2 H) as [-> H'].
  split; [reflexivity|].
  injection H' as H'. exact (append_cancel_r _ _ _ H').
Qed.

End Requests.

Lemma SetCustomField_as_item_witness :
  SetCustomFieldByItem unit (fun _ => tt) (fun _ => None) probando [] []
  = SetCustomField unit (fun _ => tt) (fun _ => None) "57f5183c691585658d408681"
      "57f5183c691585658d408681" (VString "probando") [] [].
Proof.
  apply (SetCustomField_as_item unit (fun _ => tt) (fun _ => None) probando [] []).
  left. reflexivity.
Defined.

Lemma request_path_tells_card_and_field_witness : "c1" = "c1" /\ "f/1" = "f/1".
Proof.
  apply (request_path_tells_card_and_field unit (fun _ => tt) (fun _ => None)
           "c1" "f/1" "c1" "f/1" (VInt 1) (VBool true) [] [tt]); reflexivity.
Defined.

(** With a slash in a card identifier two different pairs can share a path. *)
Example request_path_shared :
  map (req_path unit)
      (snd (SetCustomField unit (fun _ => tt) (fun _ => None) "a/customField/b" "c" VNil [] []))
  = map (req_path unit)
      (snd (SetCustomField unit (fun _ => tt) (fun _ => None) "a" "b/customField/c" VNil [] [])).
Proof. reflexivity. Qed.

(** ** Items on the wire *)

Ltac item_cases it :=
  destruct it as [i v iv icf im imt];
  cbn [ID Value IDValue IDCustomField IDModel IDModelType] in *;
  unfold string_member, Marshal_string;
  destruct (String.eqb_spec i ""), (String.eqb_spec iv ""), (String.eqb_spec icf ""),
    (String.eqb_spec im ""), (String.eqb_spec imt ""); subst.

(** Property X17: an item whose value comes back from its wire form comes
    back whole: decoding the object written for the item into an empty item
    gives the item (strings of well-formed UTF-8). *)
Theorem item_round_trip (it : CustomFieldItem) (w : json) :
  MarshalJSON (Value it) = (Some w, None) ->
  UnmarshalJSON (mkCustomFieldValue VNil) w = (Value it, None) ->
  Utf8.valid (ID it) = true -> Utf8.valid (IDValue it) = true ->
  Utf8.valid (IDCustomField it) = true -> Utf8.valid (IDModel it) = true ->
  Utf8.valid (IDModelType it) = true ->
  exists j, marshal_item it = (Some j, None) /\ unmarshal_item j zero_item = (it, None).
Proof.
  intros Hm Hu H1 H2 H3 H4 H5. unfold marshal_item. rewrite Hm.
  eexists. split; [reflexivity|]. unfold unmarshal_item, zero_item.
  apply valid_coerce in H1, H2, H3, H4, H5.
  item_cases it;
    cbn -[UnmarshalJSON]; rewrite Hu; cbn -[UnmarshalJSON];
    rewrite ?H1, ?H2, ?H3, ?H4, ?H5; reflexivity.
Qed.

Lemma item_round_trip_witness :
  exists j,
    marshal_item (mkCustomFieldItem "i1" (NewCustomFieldValue (VInt 5)) "" "f1" "c1" "card")
      = (Some j, None)
    /\ unmarshal_item j zero_item
       = (mkCustomFieldItem "i1" (NewCustomFieldValue (VInt 5)) "" "f1" "c1" "card", None).
Proof.
  apply (item_round_trip
           (mkCustomFieldItem "i1" (NewCustomFieldValue (VInt 5)) "" "f1" "c1" "card")
           (JObject [("number", JString "5")])); reflexivity.
Defined.

(** Property X18: an item whose value is the empty string is encoded, with
    the bare empty string under "value", but the object written cannot be
    decoded: [UnmarshalJSON] refuses the bare string and the decoding of the
    item ends with that error. *)
Theorem item_with_empty_string_is_not_read_back (it : CustomFieldItem) :
  val (Value it) = VString "" ->
  exists j, marshal_item it = (Some j, None)
            /\ snd (unmarshal_item j zero_item) = Some (ErrJSONType "string").
Proof.
  intros Hv. unfold marshal_item, MarshalJSON. rewrite Hv.
  eexists. split; [reflexivity|]. unfold unmarshal_item, zero_item.
  item_cases it; reflexivity.
Qed.

Lemma item_with_empty_string_is_not_read_back_witness :
  exists j,
    marshal_item (mkCustomFieldItem "i1" (NewCustomFieldValue (VString "")) "" "f1" "c1" "")
      = (Some j, None)
    /\ snd (unmarshal_item j zero_item) = Some (ErrJSONType "string").
Proof.
  apply (item_with_empty_string_is_not_read_back
           (mkCustomFieldItem "i1" (NewCustomFieldValue (VString "")) "" "f1" "c1" "")).
  reflexivity.
Defined.

(** ** The date as it is written *)

Lemma isDigit_digit_char (d : Z) : 0 <= d < 10 -> isDigit (digit_char d) = true.
Proof. intros H. apply digit_char_spec. exact H. Qed.

Lemma tens_bound (x : Z) : 0 <= x < 100 -> 0 <= x / 10 < 10.
Proof. intros H. split; [apply Z.div_pos; lia | apply Z.div_lt_upper_bound; lia]. Qed.

Lemma units_bound (x : Z) : 0 <= x mod 10 < 10.
Proof. apply Z.mod_pos_bound. lia. Qed.

(** Property X9: for every timestamp whose year, in its own location, has
    four digits, the date written is in the layout exactly: twenty bytes,
    digits for year, month, day, hour, minute and second between the literals
    "-", "-", "T", ":", ":" and "Z". *)
Theorem encoded_date_layout (t : Time.Time) :
  0 <= Time.f_year (Time.fields_of t) <= 9999 ->
  exists s, MarshalJSON (NewCustomFieldValue (VTime t))
            = (Some (JObject [("date", JString s)]), None)
            /\ layout_shaped s = true.
Proof.
  intros Hy. exists (Time.Format t timeFmt). split.
  - unfold MarshalJSON, NewCustomFieldValue. cbn [val marshal_value].
    unfold marshal_cfval, Marshal_struct, cfval_struct, Marshal_string.
    cbn [Text Number Date Checked filter fst snd String.eqb negb map].
    rewrite (eqb_empty_false _ (Format_never_empty t)). cbn [negb map fst snd].
    rewrite (ascii_only_coerce _ (Format_ascii t)). reflexivity.
  - rewrite TimeFacts.Format_timeFmt by lia.
    destruct (TimeFacts.fields_of_spec t) as (Hm & Hd & Hh & Hmi & Hs & _).
    pose proof (TimeFacts.daysIn_le_31 (Time.f_month (Time.fields_of t))
                  (Time.f_year (Time.fields_of t))) as H31.
    set (f := Time.fields_of t) in *.
    unfold four_digits, two_digits. cbn [layout_shaped Ascii.eqb Bool.eqb andb].
    assert (Y1 : 0 <= Time.f_year f / 1000 < 10)
      by (split; [apply Z.div_pos; lia | apply Z.div_lt_upper_bound; lia]).
    rewrite (isDigit_digit_char _ Y1), !(isDigit_digit_char _ (units_bound _)).
    rewrite !isDigit_digit_char by (apply tens_bound; lia). reflexivity.
Qed.

Lemma encoded_date_layout_witness :
  exists s, MarshalJSON (NewCustomFieldValue (VTime noon_cest))
            = (Some (JObject [("date", JString s)]), None)
            /\ layout_shaped s = true.
Proof.
  apply (encoded_date_layout noon_cest). vm_compute. split; discriminate.
Defined.
